(** * VulnHunter: tool orchestration and normalisation engine

    A shallow embedding of the Python sources

      - [src/vulnhunter/models/report.py]         (module [Report])
      - [src/vulnhunter/tools/base.py]            (module [Base])
      - [src/vulnhunter/tools/docker_wrapper.py]  (module [Docker])
      - [src/vulnhunter/tools/slither.py]         (module [Slither])
      - [src/vulnhunter/tools/mythril.py]         (module [Mythril])
      - [src/vulnhunter/tools/echidna.py]         (module [Echidna])
      - [src/vulnhunter/core/pipeline.py]         (module [Pipeline])
      - [docker/wrappers/*-wrapper.py]            (module [Wrappers])

    followed by the properties of section 8 of the specification.

    Conventions of the embedding:
      - Python [float]s are exact rationals ([Q]); rounding is not modelled.
      - A Python exception is a value of [exn]; code that may raise lives in
        the error monad [E] (pure code) or in [M] (code that also spawns
        processes and mutates the wrapper object).
      - Whatever the interpreter and the operating system provide
        ([json.loads], [re], [pathlib], process creation) is a field of the
        record [host]; every definition is parametric in it.
      - Wall-clock readings ([execution_time]) are left out of [ToolResult]. *)

From Stdlib Require Import ZArith QArith Qminmax Lqa String Ascii List Lia.
From Stdlib Require Import Permutation DecimalString.
From stdpp Require Import base option list gmap strings.

Local Open Scope string_scope.
Local Open Scope Z_scope.

(** ** Python values and primitives *)

Module Py.

(** Exceptions: the classes the sources raise or catch. [TimeoutError] is the
    builtin; the project runs on Python 3.12, where [asyncio.TimeoutError] is
    the same class. *)
Inductive exn_class : Type :=
| JSONDecodeError | KeyError | AttributeError | TypeError | IndexError
| RuntimeError | TimeoutError | OSError.

Record exn : Type := Exn { exn_kind : exn_class; exn_str : string }.

Definition E (A : Type) : Type := exn + A.

Definition raise {A} (k : exn_class) (msg : string) : E A := inl (Exn k msg).

#[global] Instance E_ret : MRet E := fun _ x => inr x.
#[global] Instance E_bind : MBind E := fun _ _ f m =>
  match m with inl e => inl e | inr x => f x end.

Definition is_TimeoutError (e : exn) : bool :=
  match exn_kind e with TimeoutError => true | _ => false end.

Definition is_JSONDecodeError_or_KeyError (e : exn) : bool :=
  match exn_kind e with JSONDecodeError | KeyError => true | _ => false end.

(** What [json.loads] returns. *)
#[warnings="-register-all"]
Inductive json : Type :=
| JNull
| JBool (b : bool)
| JInt (n : Z)
| JFloat (q : Q)
| JStr (s : string)
| JArr (items : list json)
| JObj (fields : list (string * json)).

(** [bool(x)] *)
Definition truthy (x : json) : bool :=
  match x with
  | JNull => false
  | JBool b => b
  | JInt n => negb (n =? 0)
  | JFloat q => negb (Qeq_bool q 0)
  | JStr s => negb (String.eqb s "")
  | JArr l => match l with [] => false | _ => true end
  | JObj l => match l with [] => false | _ => true end
  end.

(** [x == s] for a string literal [s] *)
Definition eq_str (x : json) (s : string) : bool :=
  match x with JStr t => String.eqb t s | _ => false end.

(** [x == False]: numbers compare equal to booleans in Python. *)
Definition eq_False (x : json) : bool :=
  match x with
  | JBool b => negb b
  | JInt n => n =? 0
  | JFloat q => Qeq_bool q 0
  | _ => false
  end.

(** [isinstance(x, dict)] *)
Definition is_dict (x : json) : bool :=
  match x with JObj _ => true | _ => false end.

(** Lists and dicts are unhashable: using one as a [dict.get] key raises. *)
Definition hashable (x : json) : bool :=
  match x with JArr _ | JObj _ => false | _ => true end.

Fixpoint assoc {A} (k : string) (l : list (string * A)) : option A :=
  match l with
  | [] => None
  | (k', v) :: l' => if String.eqb k k' then Some v else assoc k l'
  end.

(** [d[k] = v] on a dict that keeps insertion order *)
Fixpoint assoc_set {A} (k : string) (v : A) (l : list (string * A))
  : list (string * A) :=
  match l with
  | [] => [(k, v)]
  | (k', v') :: l' =>
      if String.eqb k k' then (k', v) :: l' else (k', v') :: assoc_set k v l'
  end.

(** [d.update(other)] *)
Definition assoc_update {A} (d other : list (string * A)) : list (string * A) :=
  fold_left (fun acc kv => assoc_set (fst kv) (snd kv) acc) other d.

(** [x.get(k, dflt)]: only a dict has the method. *)
Definition get (x : json) (k : string) (dflt : json) : E json :=
  match x with
  | JObj kvs => mret (default dflt (assoc k kvs))
  | _ => raise AttributeError "object has no attribute 'get'"
  end.

(** [table.get(key, dflt)] on a table with string keys, [key] any value *)
Definition table_get {A} (table : list (string * A)) (key : json) (dflt : A)
  : E A :=
  match key with
  | JStr s => mret (default dflt (assoc s table))
  | JArr _ | JObj _ => raise TypeError "unhashable type"
  | _ => mret dflt
  end.

Definition chars (s : string) : list json :=
  map (fun c => JStr (String c EmptyString)) (list_ascii_of_string s).

(** [for x in v]: the items the loop visits. *)
Definition iter (v : json) : E (list json) :=
  match v with
  | JArr l => mret l
  | JObj kvs => mret (map (fun kv => JStr (fst kv)) kvs)
  | JStr s => mret (chars s)
  | _ => raise TypeError "object is not iterable"
  end.

(** [len(v)] *)
Definition len (v : json) : E Z :=
  match v with
  | JArr l => mret (Z.of_nat (length l))
  | JObj kvs => mret (Z.of_nat (length kvs))
  | JStr s => mret (Z.of_nat (String.length s))
  | _ => raise TypeError "object has no len()"
  end.

(** [v[0]] and [v[-1]] *)
Definition item_first (v : json) : E json :=
  match v with
  | JArr (x :: _) => mret x
  | JArr [] => raise IndexError "list index out of range"
  | JStr (String c _) => mret (JStr (String c EmptyString))
  | JStr EmptyString => raise IndexError "string index out of range"
  | JObj _ => raise KeyError "0"
  | _ => raise TypeError "object is not subscriptable"
  end.

Definition item_last (v : json) : E json :=
  match v with
  | JArr l =>
      match last l with
      | Some x => mret x
      | None => raise IndexError "list index out of range"
      end
  | JStr s =>
      match last (list_ascii_of_string s) with
      | Some c => mret (JStr (String c EmptyString))
      | None => raise IndexError "string index out of range"
      end
  | JObj _ => raise KeyError "-1"
  | _ => raise TypeError "object is not subscriptable"
  end.

(** [a or b] *)
Definition or_ (a b : json) : json := if truthy a then a else b.

(** *** Strings *)

(** [c.isspace()] on the ASCII range *)
Definition is_space (c : ascii) : bool :=
  let n := nat_of_ascii c in
  ((9 <=? n)%nat && (n <=? 13)%nat) || ((28 <=? n)%nat && (n <=? 32)%nat).

(** [not s.strip()] *)
Definition is_blank (s : string) : bool :=
  forallb is_space (list_ascii_of_string s).

Fixpoint lstrip (s : string) : string :=
  match s with
  | EmptyString => EmptyString
  | String c s' => if is_space c then lstrip s' else s
  end.

(** [needle in hay] *)
Definition contains (needle hay : string) : bool :=
  match String.index 0 needle hay with Some _ => true | None => false end.

(** [s[s.find(c):]], or [None] when [s.find(c) == -1] *)
Fixpoint from_first (c : ascii) (s : string) : option string :=
  match s with
  | EmptyString => None
  | String c' s' => if Ascii.eqb c c' then Some s else from_first c s'
  end.

(** [s[:n]] *)
Definition take_str (n : nat) (s : string) : string := String.substring 0 n s.

Definition lower_ascii (c : ascii) : ascii :=
  let n := nat_of_ascii c in
  if ((65 <=? n)%nat && (n <=? 90)%nat)%bool then ascii_of_nat (n + 32) else c.

(** [s.lower()] on ASCII text *)
Fixpoint lower (s : string) : string :=
  match s with
  | EmptyString => EmptyString
  | String c s' => String (lower_ascii c) (lower s')
  end.

Fixpoint drop_str (n : nat) (s : string) : string :=
  match n, s with
  | O, _ => s
  | S n', String _ s' => drop_str n' s'
  | S _, EmptyString => EmptyString
  end.

(** [s.replace(old, "")] for a non-empty [old]; [fuel] bounds the scan. *)
Fixpoint remove_all (fuel : nat) (old s : string) : string :=
  match fuel with
  | O => s
  | S fuel' =>
      match s with
      | EmptyString => EmptyString
      | String c s' =>
          if String.prefix old s
          then remove_all fuel' old (drop_str (String.length old) s)
          else String c (remove_all fuel' old s')
      end
  end.

Definition replace_with_empty (old s : string) : string :=
  remove_all (String.length s) old s.

(** [str(n)] for an integer *)
Definition str_of_Z (n : Z) : string := NilZero.string_of_int (Z.to_int n).

End Py.

(** ** [config/settings.py]: severity levels *)

Inductive SeverityLevel : Type := CRITICAL | HIGH | MEDIUM | LOW | INFO.

#[global] Instance SeverityLevel_eq_dec : EqDecision SeverityLevel.
Proof. solve_decision. Defined.

(** Position in the ranking (the declaration order of the enum, reversed):
    [INFO] lowest, [CRITICAL] highest. *)
Definition severity_rank (s : SeverityLevel) : nat :=
  match s with
  | CRITICAL => 4 | HIGH => 3 | MEDIUM => 2 | LOW => 1 | INFO => 0
  end%nat.

Definition severity_of_rank (n : nat) : option SeverityLevel :=
  match n with
  | 4 => Some CRITICAL | 3 => Some HIGH | 2 => Some MEDIUM
  | 1 => Some LOW | 0 => Some INFO | _ => None
  end%nat.

#[global] Program Instance SeverityLevel_countable : Countable SeverityLevel :=
  inj_countable severity_rank severity_of_rank _.
Next Obligation. by intros []. Qed.

(** ** [models/vulnerability.py]

    Modelled from the spec: the file [models/vulnerability.py] is not among
    the sources. The members of [VulnerabilityType] are the ones the tool
    wrappers name; the fields of [VulnerabilityLocation], [Finding] and
    [Vulnerability] are the keyword arguments and attributes the sources use
    (spec section 3). Field values taken straight from tool output keep their
    JSON type: whatever validation the missing classes perform is not
    modelled. *)

Inductive VulnerabilityType : Type :=
| REENTRANCY | INTEGER_OVERFLOW | INTEGER_UNDERFLOW | UNPROTECTED_ETHER
| UNEXPECTED_ETHER | UNPROTECTED_SELFDESTRUCT | UNCHECKED_CALL | UNCHECKED_SEND
| ACCESS_CONTROL | DELEGATECALL | TIMESTAMP_DEPENDENCE | WEAK_RANDOMNESS
| DOS_GAS_LIMIT | LOGIC_ERROR | SHADOWING | FLOATING_PRAGMA | OUTDATED_COMPILER
| UNKNOWN.

#[global] Instance VulnerabilityType_eq_dec : EqDecision VulnerabilityType.
Proof. solve_decision. Defined.

Definition VulnerabilityType_members : list VulnerabilityType :=
  [REENTRANCY; INTEGER_OVERFLOW; INTEGER_UNDERFLOW; UNPROTECTED_ETHER;
   UNEXPECTED_ETHER; UNPROTECTED_SELFDESTRUCT; UNCHECKED_CALL; UNCHECKED_SEND;
   ACCESS_CONTROL; DELEGATECALL; TIMESTAMP_DEPENDENCE; WEAK_RANDOMNESS;
   DOS_GAS_LIMIT; LOGIC_ERROR; SHADOWING; FLOATING_PRAGMA; OUTDATED_COMPILER;
   UNKNOWN].

Definition VulnerabilityType_index (t : VulnerabilityType) : nat :=
  match t with
  | REENTRANCY => 0 | INTEGER_OVERFLOW => 1 | INTEGER_UNDERFLOW => 2
  | UNPROTECTED_ETHER => 3 | UNEXPECTED_ETHER => 4
  | UNPROTECTED_SELFDESTRUCT => 5 | UNCHECKED_CALL => 6 | UNCHECKED_SEND => 7
  | ACCESS_CONTROL => 8 | DELEGATECALL => 9 | TIMESTAMP_DEPENDENCE => 10
  | WEAK_RANDOMNESS => 11 | DOS_GAS_LIMIT => 12 | LOGIC_ERROR => 13
  | SHADOWING => 14 | FLOATING_PRAGMA => 15 | OUTDATED_COMPILER => 16
  | UNKNOWN => 17
  end%nat.

#[global] Program Instance VulnerabilityType_countable
  : Countable VulnerabilityType :=
  inj_countable VulnerabilityType_index
    (fun n => VulnerabilityType_members !! n) _.
Next Obligation. by intros []. Qed.

Record VulnerabilityLocation : Type := {
  file_path : Py.json;
  start_line : Py.json;
  end_line : Py.json;
  code_snippet : Py.json;
}.

Record Finding : Type := {
  tool : string;
  title : Py.json;
  description : Py.json;
  vulnerability_type : VulnerabilityType;
  severity : SeverityLevel;
  confidence : Q;
  location : option VulnerabilityLocation;
  raw_output : Py.json;
}.

(** [finding.raw_output[k] = v] *)
Definition set_raw_output (k : string) (v : Py.json) (f : Finding) : Finding :=
  {| tool := tool f; title := title f; description := description f;
     vulnerability_type := vulnerability_type f; severity := severity f;
     confidence := confidence f; location := location f;
     raw_output :=
       match raw_output f with
       | Py.JObj kvs => Py.JObj (Py.assoc_set k v kvs)
       | other => other
       end |}.

Record Vulnerability : Type := {
  v_title : string;
  v_vulnerability_type : VulnerabilityType;
  v_severity : SeverityLevel;
  v_confidence : Q;
  v_swc_id : option string;
}.


(** ** [models/report.py] *)

Module Report.

Inductive AnalysisStatus : Type :=
| PENDING | RUNNING | COMPLETED | FAILED | TIMEOUT | CANCELLED.

(** The counting fields of [AnalysisMetrics]. [by_type] is keyed here by the
    enum member whose [.value] is the key in the source. The duration,
    coverage and quality fields are clock- or tool-dependent and left out. *)
Record AnalysisMetrics : Type := {
  total_vulnerabilities : Z;
  by_severity : gmap SeverityLevel Z;
  by_type : gmap VulnerabilityType Z;
  by_swc : gmap string Z;
}.

(** [AnalysisMetrics()] *)
Definition AnalysisMetrics_default : AnalysisMetrics :=
  {| total_vulnerabilities := 0; by_severity := ∅; by_type := ∅; by_swc := ∅ |}.

Record AnalysisReport : Type := {
  contract_address : option string;
  contract_name : string;
  status : AnalysisStatus;
  tools_used : list string;
  vulnerabilities : list Vulnerability;
  metrics : AnalysisMetrics;
}.

(** [AnalysisReport(contract_name=.., status=.., vulnerabilities=..,
    metrics=..)]: the pydantic constructor. A keyword that is not given takes
    the field's default; the class declares no validator. *)
Definition new (name : string) (st : option AnalysisStatus)
    (vulns : option (list Vulnerability)) (m : option AnalysisMetrics)
  : AnalysisReport :=
  {| contract_address := None;
     contract_name := name;
     status := default PENDING st;
     tools_used := [];
     vulnerabilities := default [] vulns;
     metrics := default AnalysisMetrics_default m |}.

(** [has_critical_findings] *)
Definition has_critical_findings (r : AnalysisReport) : bool :=
  existsb (fun v => bool_decide (v_severity v = CRITICAL)) (vulnerabilities r).

(** [get_vulnerabilities_by_severity] *)
Definition get_vulnerabilities_by_severity (r : AnalysisReport)
    (s : SeverityLevel) : list Vulnerability :=
  List.filter (fun v => bool_decide (v_severity v = s)) (vulnerabilities r).






(** The invariant of spec section 3. *)
Definition count_matches (r : AnalysisReport) : Prop :=
  total_vulnerabilities (metrics r) = Z.of_nat (length (vulnerabilities r)).






End Report.

(** ** [core/pipeline.py] *)

Module Pipeline.

(** [VulnHunterPipeline.analyze]: the placeholder implementation ignores both
    arguments. *)
Definition analyze (target : string) (config : option unit)
  : Report.AnalysisReport :=
  Report.new "Placeholder" (Some Report.COMPLETED) None None.

End Pipeline.

(** ** [tools/base.py] *)

Module Base.

Inductive ToolStatus : Type := SUCCESS | FAILED | TIMEOUT | ERROR.

#[global] Instance ToolStatus_eq_dec : EqDecision ToolStatus.
Proof. solve_decision. Defined.

(** [execution_time] is a clock reading and is left out; [metadata] is the
    empty dict in every result the wrappers build. *)
Record ToolResult : Type := {
  tool_name : string;
  status : ToolStatus;
  findings : list Finding;
  raw_output : option string;
  error_message : option string;
}.

(** [ToolWrapper.parse_severity] *)
Definition parse_severity (severity_str : string) : SeverityLevel :=
  let severity_map :=
    [("critical", CRITICAL); ("high", HIGH); ("medium", MEDIUM); ("low", LOW);
     ("info", INFO); ("informational", INFO); ("warning", MEDIUM)] in
  default MEDIUM (Py.assoc (Py.lower severity_str) severity_map).

End Base.

(** ** The host: interpreter libraries and operating system *)

(** What happens when a command line is executed: the process cannot be
    created ([create_subprocess_exec] raises), or it runs for [duration]
    seconds and exits with the given output and return code. *)
Inductive process : Type :=
| Spawn_fails (e : Py.exn)
| Runs (duration : Z) (stdout stderr : string) (returncode : Z).

Record host : Type := {
  (** [json.loads]; [None] stands for [JSONDecodeError] *)
  json_loads : string -> option Py.json;
  (** [str(x)], as an f-string renders a decoded value *)
  py_str : Py.json -> string;
  (** [m.group(1)] for each match of [echidna_(\w+):\s*failed] (ignoring
      case) in a text, in order *)
  re_failed : string -> list string;
  (** [(m.group(1), int(m.group(2)))] for each match of
      [Assertion failed.*?at\s+([^:]+):(\d+)] (ignoring case) *)
  re_assertion : string -> list (string * Z);
  (** [pathlib.Path]; a path is its text *)
  path_is_file : string -> bool;
  path_is_dir : string -> bool;
  path_exists : string -> bool;
  path_name : string -> string;
  path_parent : string -> string;
  path_absolute : string -> string;
  path_join : string -> string -> string;
  path_glob : string -> string -> list string;
  (** the outcome of running a command line, given the command lines run
      before it *)
  spawn : list (list string) -> list string -> process;
}.

(** ** [tools/docker_wrapper.py] *)

Module Docker.

Record DockerToolWrapper : Type := {
  tool_name : string;
  config : gmap string Z;
  _initialized : bool;
  docker_image : string;
  container_name : string;
  _container_id : option string;
}.

(** The wrapper object together with the command lines executed so far. *)
Record state : Type := {
  self : DockerToolWrapper;
  spawned : list (list string);
}.

Definition M (A : Type) : Type := state -> Py.E A * state.

#[global] Instance M_ret : MRet M := fun _ x s => (inr x, s).
#[global] Instance M_bind : MBind M := fun _ _ f m s =>
  match m s with
  | (inl e, s') => (inl e, s')
  | (inr x, s') => f x s'
  end.

Definition raise {A} (k : Py.exn_class) (msg : string) : M A :=
  fun s => (inl (Py.Exn k msg), s).

Definition lift {A} (m : Py.E A) : M A := fun s => (m, s).

Definition get_self : M DockerToolWrapper := fun s => (inr (self s), s).

Definition set_initialized (b : bool) : M unit := fun s =>
  (inr tt,
   {| self := {| tool_name := tool_name (self s); config := config (self s);
                 _initialized := b; docker_image := docker_image (self s);
                 container_name := container_name (self s);
                 _container_id := _container_id (self s) |};
      spawned := spawned s |}).

Definition set_container_id (c : option string) : M unit := fun s =>
  (inr tt,
   {| self := {| tool_name := tool_name (self s); config := config (self s);
                 _initialized := _initialized (self s);
                 docker_image := docker_image (self s);
                 container_name := container_name (self s);
                 _container_id := c |};
      spawned := spawned s |}).

(** [try: body except Exception as e: handler(e)] *)
Definition try_except {A} (body : M A) (handler : Py.exn -> M A) : M A :=
  fun s =>
    match body s with
    | (inl e, s') => handler e s'
    | (inr x, s') => (inr x, s')
    end.

(** [DockerToolWrapper.__init__]; [unique_id] is the text made of the clock
    reading and the random suffix. *)
Definition init (tool_name docker_image : string) (config : option (gmap string Z))
    (unique_id : string) : DockerToolWrapper :=
  {| tool_name := tool_name;
     config := default ∅ config;
     _initialized := false;
     docker_image := docker_image;
     container_name := "vulnhunter-" +:+ tool_name +:+ "-" +:+ unique_id;
     _container_id := None |}.

Section WithHost.
Context (h : host).

(** [_run_command]. With a truthy [timeout], a process that runs longer is
    killed and [asyncio.wait_for] raises [TimeoutError]. *)
Definition _run_command (cmd : list string) (timeout : option Z)
    (capture_output : bool) : M (string * string * Z) :=
  fun s =>
    let s' := {| self := self s; spawned := spawned s ++ [cmd] |} in
    match spawn h (spawned s) cmd with
    | Spawn_fails e => (inl e, s')
    | Runs duration out err returncode =>
        match timeout with
        | Some t =>
            if negb (t =? 0) && (t <? duration)
            then (inl (Py.Exn Py.TimeoutError ""), s')
            else
              (inr (if capture_output then out else "",
                    if capture_output then err else "", returncode), s')
        | None =>
            (inr (if capture_output then out else "",
                  if capture_output then err else "", returncode), s')
        end
    end.

(** [initialize] *)
Definition initialize : M unit :=
  me ← get_self;
  if _initialized me then mret tt
  else
    result ← _run_command ["docker"; "images"; "-q"; docker_image me] None true;
    _ ← (if Py.is_blank (result.1.1)
         then
           r ← _run_command ["docker"; "pull"; docker_image me] None false;
           if negb (r.2 =? 0)
           then raise Py.RuntimeError
                  ("Failed to pull Docker image " +:+ docker_image me +:+ ": "
                   +:+ r.1.2)
           else mret tt
         else mret tt);
    set_initialized true.

(** [cleanup]: the [except Exception] clause swallows whatever the two
    commands raise, and the [finally] clause resets the field. *)
Definition cleanup : M unit :=
  me ← get_self;
  match _container_id me with
  | Some id =>
      if String.eqb id "" then mret tt
      else
        _ ← try_except
              (_ ← _run_command ["docker"; "stop"; id] None true;
               _ ← _run_command ["docker"; "rm"; id] None true;
               mret tt)
              (fun _ => mret tt);
        set_container_id None
  | None => mret tt
  end.

(** The [docker run] command line that [run_in_container] assembles. *)
Definition docker_cmd (me : DockerToolWrapper) (command : list string)
    (contract_path working_dir : string)
    (additional_volumes environment : option (list (string * string)))
    (network_enabled : bool) : list string :=
  let volumes :=
    Py.assoc_update [(path_absolute h contract_path, "/contracts")]
      (default [] additional_volumes) in
  ["docker"; "run"; "--rm"; "--name"; container_name me; "-w"; working_dir]
  ++ flat_map (fun hc => ["-v"; hc.1 +:+ ":" +:+ hc.2 +:+ ":ro"]) volumes
  ++ flat_map (fun kv => ["-e"; kv.1 +:+ "=" +:+ kv.2]) (default [] environment)
  ++ ["--memory";
      Py.str_of_Z (default 4096 (config me !! "max_memory_mb")) +:+ "m";
      "--cpus"; Py.str_of_Z (default 2 (config me !! "max_cpus"))]
  ++ ["--security-opt"; "no-new-privileges"; "--cap-drop"; "ALL"]
  ++ (if network_enabled then [] else ["--network"; "none"])
  ++ [docker_image me]
  ++ command.

(** [run_in_container] *)
Definition run_in_container (command : list string)
    (contract_path working_dir : string)
    (additional_volumes environment : option (list (string * string)))
    (network_enabled : bool) : M (string * string * Z) :=
  me ← get_self;
  let timeout := default 300 (config me !! "timeout") in
  try_except
    (_run_command
       (docker_cmd me command contract_path working_dir additional_volumes
          environment network_enabled)
       (Some timeout) true)
    (fun e =>
       if Py.is_TimeoutError e
       then
         _ ← _run_command ["docker"; "kill"; container_name me] None true;
         raise Py.TimeoutError
           ("Tool " +:+ tool_name me +:+ " timed out after "
            +:+ Py.str_of_Z timeout +:+ "s")
       else fun s => (inl e, s)).

End WithHost.

End Docker.

(** Helpers shared by the three parsers. *)

Module Parse.

(** A [str] method call ([.strip()], [.find()], [+]) on a value that may not
    be a string. *)
Definition as_str (x : Py.json) : Py.E string :=
  match x with
  | Py.JStr s => mret s
  | _ => Py.raise Py.AttributeError "object has no attribute 'strip'"
  end.

Definition loads (h : host) (s : string) : Py.E Py.json :=
  match json_loads h s with
  | Some v => mret v
  | None => Py.raise Py.JSONDecodeError "Expecting value"
  end.

(** [try: body except json.JSONDecodeError: return None
     except Exception: return None] *)
Definition none_on_exception {A} (body : Py.E (option A)) : option A :=
  match body with inl _ => None | inr r => r end.

(** [try: body except (json.JSONDecodeError, KeyError): return []] *)
Definition empty_on_decode_error {A} (body : Py.E (option (list A)))
  : Py.E (option (list A)) :=
  match body with
  | inl e => if Py.is_JSONDecodeError_or_KeyError e then mret (Some []) else inl e
  | inr r => inr r
  end.

End Parse.

(** ** [tools/slither.py] *)

Module Slither.

Definition tool_name : string := "slither".
Definition docker_image : string := "vulnhunter-slither:latest".

Definition detector_mapping : list (string * VulnerabilityType) :=
  [("reentrancy-eth", REENTRANCY);
   ("reentrancy-no-eth", REENTRANCY);
   ("reentrancy-benign", REENTRANCY);
   ("reentrancy-events", REENTRANCY);
   ("reentrancy-unlimited-gas", REENTRANCY);
   ("unprotected-upgrade", ACCESS_CONTROL);
   ("suicidal", UNPROTECTED_SELFDESTRUCT);
   ("unchecked-transfer", UNCHECKED_CALL);
   ("unchecked-lowlevel", UNCHECKED_CALL);
   ("unchecked-send", UNCHECKED_SEND);
   ("arbitrary-send", UNPROTECTED_ETHER);
   ("controlled-delegatecall", DELEGATECALL);
   ("delegatecall-loop", DELEGATECALL);
   ("timestamp", TIMESTAMP_DEPENDENCE);
   ("weak-prng", WEAK_RANDOMNESS);
   ("divide-before-multiply", INTEGER_OVERFLOW);
   ("locked-ether", UNEXPECTED_ETHER);
   ("tx-origin", ACCESS_CONTROL);
   ("shadowing-state", SHADOWING);
   ("incorrect-equality", LOGIC_ERROR);
   ("uninitialized-state", LOGIC_ERROR);
   ("uninitialized-storage", LOGIC_ERROR);
   ("uninitialized-local", LOGIC_ERROR);
   ("pragma", FLOATING_PRAGMA);
   ("solc-version", OUTDATED_COMPILER)].

(** [self.swc_mapping.get(vuln_type)] *)
Definition swc_mapping (t : VulnerabilityType) : option string :=
  match t with
  | REENTRANCY => Some "SWC-107"
  | INTEGER_OVERFLOW => Some "SWC-101"
  | INTEGER_UNDERFLOW => Some "SWC-101"
  | UNPROTECTED_SELFDESTRUCT => Some "SWC-106"
  | UNPROTECTED_ETHER => Some "SWC-105"
  | UNCHECKED_CALL => Some "SWC-104"
  | FLOATING_PRAGMA => Some "SWC-103"
  | OUTDATED_COMPILER => Some "SWC-102"
  | DELEGATECALL => Some "SWC-112"
  | WEAK_RANDOMNESS => Some "SWC-120"
  | TIMESTAMP_DEPENDENCE => Some "SWC-116"
  | SHADOWING => Some "SWC-119"
  | UNCHECKED_SEND => Some "SWC-113"
  | ACCESS_CONTROL => Some "SWC-115"
  | _ => None
  end.

(** [_map_severity] *)
Definition _map_severity (impact : Py.json) : Py.E SeverityLevel :=
  Py.table_get
    [("High", HIGH); ("Medium", MEDIUM); ("Low", LOW);
     ("Informational", INFO); ("Optimization", INFO)]
    impact MEDIUM.

(** [_confidence_to_score] *)
Definition _confidence_to_score (confidence : Py.json) : Py.E Q :=
  Py.table_get [("High", 9 # 10); ("Medium", 7 # 10); ("Low", 5 # 10)]
    confidence (7 # 10).

(** The [location = ...] part of the loop body of [_parse_output]. *)
Definition detector_location (detector : Py.json)
  : Py.E (option VulnerabilityLocation) :=
  elements ← Py.get detector "elements" (Py.JArr []);
  if negb (Py.truthy elements) then mret None
  else
    n ← Py.len elements;
    if negb (0 <? n) then mret None
    else
      element ← Py.item_first elements;
      source_mapping ← Py.get element "source_mapping" (Py.JObj []);
      if negb (Py.truthy source_mapping) then mret None
      else
        file ← Py.get source_mapping "filename" (Py.JStr "");
        lines ← Py.get source_mapping "lines" Py.JNull;
        first ← (if Py.truthy lines
                 then l ← Py.get source_mapping "lines" (Py.JArr [Py.JInt 0]);
                      Py.item_first l
                 else mret (Py.JInt 0));
        lines' ← Py.get source_mapping "lines" Py.JNull;
        last ← (if Py.truthy lines'
                then l ← Py.get source_mapping "lines" (Py.JArr [Py.JInt 0]);
                     Py.item_last l
                else mret (Py.JInt 0));
        snippet ← Py.get element "source" (Py.JStr "");
        mret (Some {| file_path := file; start_line := first;
                      end_line := last; code_snippet := snippet |}).

(** The body of [for detector in detectors] in [_parse_output]: the finding
    appended for one detector. *)
Definition detector_finding (detector : Py.json) : Py.E Finding :=
  check ← Py.get detector "check" (Py.JStr "unknown");
  impact ← Py.get detector "impact" (Py.JStr "Medium");
  confidence ← Py.get detector "confidence" (Py.JStr "Medium");
  description ← Py.get detector "description" (Py.JStr "");
  vuln_type ← Py.table_get detector_mapping check UNKNOWN;
  let swc_id := swc_mapping vuln_type in
  location ← detector_location detector;
  title ← Py.get detector "check" (Py.JStr "Unknown Issue");
  sev ← _map_severity impact;
  conf ← _confidence_to_score confidence;
  let finding :=
    {| tool := tool_name; title := title; description := description;
       vulnerability_type := vuln_type; severity := sev; confidence := conf;
       location := location; raw_output := detector |} in
  mret (match swc_id with
        | Some id => set_raw_output "swc_id" (Py.JStr id) finding
        | None => finding
        end).

Section WithHost.
Context (h : host).

(** [_parse_output]; [output] is whatever [wrapper_result.get("stdout", "")]
    returned. *)
Definition _parse_output (output : Py.json) (base_path : string)
  : option (list Finding) :=
  Parse.none_on_exception
    (s ← Parse.as_str output;
     if Py.is_blank s then mret (Some [])
     else
       match Py.from_first "{" s with
       | None => mret (Some [])
       | Some json_output =>
           wrapper_data ← Parse.loads h json_output;
           st ← Py.get wrapper_data "status" Py.JNull;
           if negb (Py.eq_str st "success") then mret (Some [])
           else
             slither_output ← Py.get wrapper_data "stdout" (Py.JStr "");
             so ← Parse.as_str slither_output;
             if Py.is_blank so then mret (Some [])
             else
               data ← Parse.loads h so;
               success ← Py.get data "success" (Py.JBool false);
               if negb (Py.truthy success) then mret None
               else
                 results ← Py.get data "results" (Py.JObj []);
                 detectors ← Py.get results "detectors" (Py.JArr []);
                 ds ← Py.iter detectors;
                 findings ← mapM detector_finding ds;
                 mret (Some findings)
       end).

(** [_parse_wrapper_output] *)
Definition _parse_wrapper_output (output stderr contract_path : string)
  : Py.E (option (list Finding)) :=
  Parse.empty_on_decode_error
    (wrapper_result ← Parse.loads h output;
     st ← Py.get wrapper_result "status" Py.JNull;
     if negb (Py.eq_str st "success") then mret (Some [])
     else
       slither_output ← Py.get wrapper_result "stdout" (Py.JStr "");
       mret (_parse_output slither_output contract_path)).

(** [analyze] *)
Definition analyze (contract_path : string) : Docker.M Base.ToolResult :=
  Docker.try_except
    (let '(target, working_dir) :=
       if path_is_file h contract_path
       then (path_name h contract_path, path_parent h contract_path)
       else (".", contract_path) in
     let command := ["python"; "/usr/local/bin/slither-wrapper.py"; target] in
     r ← Docker.run_in_container h command working_dir "/contracts" None None
           false;
     let '(stdout, stderr, returncode) := r in
     findings ← Docker.lift (_parse_wrapper_output stdout stderr contract_path);
     match findings with
     | Some fs =>
         mret {| Base.tool_name := tool_name; Base.status := Base.SUCCESS;
                 Base.findings := fs; Base.raw_output := Some stdout;
                 Base.error_message := None |}
     | None =>
         if negb (String.eqb stdout "")
            && (Py.contains "success" stdout || Py.contains "detectors" stdout)
         then
           mret {| Base.tool_name := tool_name; Base.status := Base.SUCCESS;
                   Base.findings := []; Base.raw_output := Some stdout;
                   Base.error_message := None |}
         else
           mret {| Base.tool_name := tool_name; Base.status := Base.ERROR;
                   Base.findings := []; Base.raw_output := Some stdout;
                   Base.error_message :=
                     Some ("Failed to parse Slither output. Stderr: "
                           +:+ Py.take_str 200 stderr) |}
     end)
    (fun e =>
       if Py.is_TimeoutError e
       then
         mret {| Base.tool_name := tool_name; Base.status := Base.TIMEOUT;
                 Base.findings := []; Base.raw_output := None;
                 Base.error_message := Some (Py.exn_str e) |}
       else
         mret {| Base.tool_name := tool_name; Base.status := Base.ERROR;
                 Base.findings := []; Base.raw_output := None;
                 Base.error_message :=
                   Some ("Slither analysis failed: " +:+ Py.exn_str e) |}).

End WithHost.

End Slither.

(** ** [tools/mythril.py] *)

Module Mythril.

Definition tool_name : string := "mythril".
Definition docker_image : string := "vulnhunter-mythril:latest".

Definition swc_to_vuln_type : list (string * VulnerabilityType) :=
  [("SWC-101", INTEGER_OVERFLOW);
   ("SWC-104", UNCHECKED_CALL);
   ("SWC-105", UNPROTECTED_ETHER);
   ("SWC-106", UNPROTECTED_SELFDESTRUCT);
   ("SWC-107", REENTRANCY);
   ("SWC-110", LOGIC_ERROR);
   ("SWC-112", DELEGATECALL);
   ("SWC-113", UNCHECKED_SEND);
   ("SWC-115", ACCESS_CONTROL);
   ("SWC-116", TIMESTAMP_DEPENDENCE);
   ("SWC-120", WEAK_RANDOMNESS);
   ("SWC-124", ACCESS_CONTROL);
   ("SWC-128", DOS_GAS_LIMIT)].

(** [_map_severity] *)
Definition _map_severity (severity : Py.json) : Py.E SeverityLevel :=
  Py.table_get
    [("High", HIGH); ("Medium", MEDIUM); ("Low", LOW); ("Informational", INFO)]
    severity MEDIUM.

(** [issue.get("swc-id") or issue.get("swcID") or ""] *)
Definition issue_swc_id (issue : Py.json) : Py.E Py.json :=
  a ← Py.get issue "swc-id" Py.JNull;
  if Py.truthy a then mret a
  else
    b ← Py.get issue "swcID" Py.JNull;
    mret (Py.or_ b (Py.JStr "")).

(** The loop body of [_parse_output] for an [issue] that is a dict. *)
Definition issue_finding (issue : Py.json) : Py.E Finding :=
  swc_id ← issue_swc_id issue;
  vuln_type ← Py.table_get swc_to_vuln_type swc_id UNKNOWN;
  lineno ← Py.get issue "lineno" (Py.JInt 0);
  location ← (if Py.truthy lineno
              then
                file ← Py.get issue "filename" (Py.JStr "");
                code ← Py.get issue "code" (Py.JStr "");
                mret (Some {| file_path := file; start_line := lineno;
                              end_line := lineno; code_snippet := code |})
              else mret None);
  title ← Py.get issue "title" (Py.JStr "Unknown Issue");
  description ← Py.get issue "description" (Py.JStr "");
  sev_str ← Py.get issue "severity" (Py.JStr "Medium");
  sev ← _map_severity sev_str;
  mret (set_raw_output "swc_id" swc_id
          {| tool := tool_name; title := title; description := description;
             vulnerability_type := vuln_type; severity := sev;
             confidence := 8 # 10; location := location;
             raw_output := issue |}).

(** [for issue in issues]: an entry that is not a dict is skipped
    ([continue]). *)
Fixpoint issues_loop (issues : list Py.json) : Py.E (list Finding) :=
  match issues with
  | [] => mret []
  | issue :: rest =>
      if negb (Py.is_dict issue) then issues_loop rest
      else
        f ← issue_finding issue;
        fs ← issues_loop rest;
        mret (f :: fs)
  end.

Section WithHost.
Context (h : host).

(** [_parse_output] *)
Definition _parse_output (output : Py.json) (base_path : string)
  : option (list Finding) :=
  Parse.none_on_exception
    (s ← Parse.as_str output;
     if Py.is_blank s then mret (Some [])
     else
       data ← Parse.loads h s;
       match data with
       | Py.JObj kvs =>
           match Py.assoc "issues" kvs, Py.assoc "results" kvs with
           | Some issues, _ | None, Some issues =>
               l ← Py.iter issues;
               findings ← issues_loop l;
               mret (Some findings)
           | None, None => mret (Some [])
           end
       | Py.JArr issues =>
           findings ← issues_loop issues;
           mret (Some findings)
       | _ => mret None
       end).

(** [_parse_wrapper_output] *)
Definition _parse_wrapper_output (output stderr contract_path : string)
  : Py.E (option (list Finding)) :=
  Parse.empty_on_decode_error
    (wrapper_result ← Parse.loads h output;
     st ← Py.get wrapper_result "status" Py.JNull;
     if negb (Py.eq_str st "success") then mret (Some [])
     else
       mythril_output ← Py.get wrapper_result "stdout" (Py.JStr "");
       mret (_parse_output mythril_output contract_path)).

(** [analyze] *)
Definition analyze (contract_path : string) : Docker.M Base.ToolResult :=
  Docker.try_except
    (match
       (if path_is_dir h contract_path
        then
          match path_glob h contract_path "*.sol" with
          | [] => None
          | first :: _ => Some (path_name h first)
          end
        else Some (path_name h contract_path))
     with
     | None =>
         mret {| Base.tool_name := tool_name; Base.status := Base.ERROR;
                 Base.findings := []; Base.raw_output := None;
                 Base.error_message :=
                   Some "No Solidity files found in directory" |}
     | Some contract_file =>
         let command :=
           ["python"; "/usr/local/bin/mythril-wrapper.py"; contract_file] in
         r ← Docker.run_in_container h command
               (if path_is_dir h contract_path then contract_path
                else path_parent h contract_path)
               "/contracts" None None false;
         let '(stdout, stderr, returncode) := r in
         findings ←
           Docker.lift (_parse_wrapper_output stdout stderr contract_path);
         match findings with
         | Some fs =>
             mret {| Base.tool_name := tool_name; Base.status := Base.SUCCESS;
                     Base.findings := fs; Base.raw_output := Some stdout;
                     Base.error_message := None |}
         | None =>
             if (returncode =? 0)
                && Py.contains "The analysis was completed successfully" stderr
             then
               mret {| Base.tool_name := tool_name;
                       Base.status := Base.SUCCESS;
                       Base.findings := []; Base.raw_output := Some stdout;
                       Base.error_message := None |}
             else
               mret {| Base.tool_name := tool_name; Base.status := Base.ERROR;
                       Base.findings := []; Base.raw_output := Some stdout;
                       Base.error_message :=
                         Some ("Mythril analysis failed. Stderr: "
                               +:+ Py.take_str 500 stderr) |}
         end
     end)
    (fun e =>
       if Py.is_TimeoutError e
       then
         mret {| Base.tool_name := tool_name; Base.status := Base.TIMEOUT;
                 Base.findings := []; Base.raw_output := None;
                 Base.error_message := Some (Py.exn_str e) |}
       else
         mret {| Base.tool_name := tool_name; Base.status := Base.ERROR;
                 Base.findings := []; Base.raw_output := None;
                 Base.error_message :=
                   Some ("Mythril analysis failed: " +:+ Py.exn_str e) |}).

End WithHost.

End Mythril.

(** ** [tools/echidna.py] *)

Module Echidna.

Definition tool_name : string := "echidna".
Definition docker_image : string := "vulnhunter-echidna:latest".

Definition property_to_vuln_type : list (string * VulnerabilityType) :=
  [("balance", UNPROTECTED_ETHER);
   ("theft", UNPROTECTED_ETHER);
   ("reentrancy", REENTRANCY);
   ("overflow", INTEGER_OVERFLOW);
   ("underflow", INTEGER_UNDERFLOW);
   ("access", ACCESS_CONTROL);
   ("dos", DOS_GAS_LIMIT)].

(** The [for keyword, vtype in ...: if keyword in ...: ... break] loop. *)
Fixpoint first_keyword (table : list (string * VulnerabilityType))
    (lowered : string) : VulnerabilityType :=
  match table with
  | [] => UNKNOWN
  | (keyword, vtype) :: rest =>
      if Py.contains keyword lowered then vtype else first_keyword rest lowered
  end.

Definition property_vuln_type (property_name : string) : VulnerabilityType :=
  first_keyword property_to_vuln_type (Py.lower property_name).

(** The finding of the text parser for one match of the failed-property
    pattern. *)
Definition failed_finding (property_name : string) : Finding :=
  {| tool := tool_name;
     title := Py.JStr ("Property Violation: echidna_" +:+ property_name);
     description :=
       Py.JStr ("Echidna found inputs that violate the property 'echidna_"
                +:+ property_name
                +:+ "'. This indicates a potential vulnerability where the expected invariant can be broken.");
     vulnerability_type := property_vuln_type property_name;
     severity := HIGH;
     confidence := 9 # 10;
     location := None;
     raw_output :=
       Py.JObj [("property", Py.JStr property_name);
                ("status", Py.JStr "failed")] |}.

(** The finding for one match of the assertion pattern. *)
Definition assertion_finding (site : string * Z) : Finding :=
  {| tool := tool_name;
     title := Py.JStr "Assertion Failure";
     description :=
       Py.JStr "Echidna triggered an assertion failure, indicating a contract invariant was violated.";
     vulnerability_type := LOGIC_ERROR;
     severity := HIGH;
     confidence := 9 # 10;
     location :=
       Some {| file_path := Py.JStr site.1; start_line := Py.JInt site.2;
               end_line := Py.JInt site.2; code_snippet := Py.JStr "" |};
     raw_output :=
       Py.JObj [("type", Py.JStr "assertion_failure");
                ("line", Py.JInt site.2)] |}.

(** ["tests" in data] *)
Definition has_tests (data : Py.json) : Py.E bool :=
  match data with
  | Py.JObj kvs => mret (bool_decide (is_Some (Py.assoc "tests" kvs)))
  | Py.JArr l => mret (existsb (fun x => Py.eq_str x "tests") l)
  | Py.JStr s => mret (Py.contains "tests" s)
  | _ => Py.raise Py.TypeError "argument is not iterable"
  end.

(** [data["tests"].items()] *)
Definition tests_items (data : Py.json) : Py.E (list (string * Py.json)) :=
  match data with
  | Py.JObj kvs =>
      match Py.assoc "tests" kvs with
      | Some (Py.JObj tests) => mret tests
      | Some _ => Py.raise Py.AttributeError "object has no attribute 'items'"
      | None => Py.raise Py.KeyError "tests"
      end
  | _ => Py.raise Py.TypeError "indices must be integers"
  end.

Section WithHost.
Context (h : host).

(** The loop body of [_parse_json_output]: the finding of a failed test, or
    nothing for a test that passed. *)
Definition test_finding (test : string * Py.json) : Py.E (option Finding) :=
  let '(test_name, test_result) := test in
  st ← Py.get test_result "status" Py.JNull;
  failed ← (if Py.eq_str st "failed" then mret true
            else p ← Py.get test_result "passed" Py.JNull;
                 mret (Py.eq_False p));
  if negb failed then mret None
  else
    let property_name := Py.replace_with_empty "echidna_" test_name in
    cex ← Py.get test_result "counterexample" (Py.JStr "Not provided");
    mret (Some
      {| tool := tool_name;
         title := Py.JStr ("Property Violation: " +:+ test_name);
         description :=
           Py.JStr ("Echidna found inputs that violate the property '"
                    +:+ test_name +:+ "'. Counterexample: "
                    +:+ match cex with Py.JStr s => s | _ => py_str h cex end);
         vulnerability_type := property_vuln_type property_name;
         severity := HIGH;
         confidence := 9 # 10;
         location := None;
         raw_output := test_result |}).

(** [_parse_json_output] *)
Definition _parse_json_output (data : Py.json) (base_path : string)
  : Py.E (list Finding) :=
  b ← has_tests data;
  if (b : bool)
  then
    items ← tests_items data;
    fs ← mapM test_finding items;
    mret (omap id fs)
  else mret [].

(** The text parser: the two [finditer] loops of [_parse_output]. *)
Definition parse_text (full_output : string) : list Finding :=
  map failed_finding (re_failed h full_output)
  ++ map assertion_finding (re_assertion h full_output).

(** [_parse_output] *)
Definition _parse_output (stdout stderr : Py.json) (base_path : string)
  : option (list Finding) :=
  Parse.none_on_exception
    (out ← Parse.as_str stdout;
     let text_fallback : Py.E (option (list Finding)) :=
       err ← Parse.as_str stderr;
       mret (Some (parse_text (out +:+ String "010" EmptyString +:+ err))) in
     if negb (Py.is_blank out) && String.prefix "{" (Py.lstrip out)
     then
       match json_loads h out with
       | Some data =>
           fs ← _parse_json_output data base_path;
           mret (Some fs)
       | None => text_fallback
       end
     else text_fallback).

(** [_parse_wrapper_output] *)
Definition _parse_wrapper_output (output stderr contract_path : string)
  : Py.E (option (list Finding)) :=
  Parse.empty_on_decode_error
    (wrapper_result ← Parse.loads h output;
     st ← Py.get wrapper_result "status" Py.JNull;
     if negb (Py.eq_str st "success") then mret (Some [])
     else
       echidna_stdout ← Py.get wrapper_result "stdout" (Py.JStr "");
       echidna_stderr ← Py.get wrapper_result "stderr" (Py.JStr "");
       mret (_parse_output echidna_stdout echidna_stderr contract_path)).

(** [analyze] *)
Definition analyze (contract_path : string) : Docker.M Base.ToolResult :=
  Docker.try_except
    (match
       (if path_is_dir h contract_path
        then
          let echidna_dir := path_join h contract_path "echidna" in
          let test_files :=
            if path_exists h echidna_dir
            then path_glob h echidna_dir "Test*.sol"
            else path_glob h contract_path "**/Test*.sol" in
          match test_files with
          | [] => None
          | first :: _ => Some (path_name h first, path_parent h first)
          end
        else Some (path_name h contract_path, path_parent h contract_path))
     with
     | None =>
         mret {| Base.tool_name := tool_name; Base.status := Base.ERROR;
                 Base.findings := []; Base.raw_output := None;
                 Base.error_message :=
                   Some "No Echidna test contracts found (Test*.sol with echidna_ properties)" |}
     | Some (contract_file, working_dir) =>
         let command :=
           ["python"; "/usr/local/bin/echidna-wrapper.py"; contract_file] in
         r ← Docker.run_in_container h command working_dir "/contracts" None
               None false;
         let '(stdout, stderr, returncode) := r in
         findings ←
           Docker.lift (_parse_wrapper_output stdout stderr contract_path);
         let raw := stdout +:+ String "010" EmptyString +:+ stderr in
         match findings with
         | Some fs =>
             mret {| Base.tool_name := tool_name; Base.status := Base.SUCCESS;
                     Base.findings := fs; Base.raw_output := Some raw;
                     Base.error_message := None |}
         | None =>
             mret {| Base.tool_name := tool_name; Base.status := Base.ERROR;
                     Base.findings := []; Base.raw_output := Some raw;
                     Base.error_message :=
                       Some ("Echidna analysis failed. Stderr: "
                             +:+ Py.take_str 500 stderr) |}
         end
     end)
    (fun e =>
       if Py.is_TimeoutError e
       then
         mret {| Base.tool_name := tool_name; Base.status := Base.TIMEOUT;
                 Base.findings := []; Base.raw_output := None;
                 Base.error_message := Some (Py.exn_str e) |}
       else
         mret {| Base.tool_name := tool_name; Base.status := Base.ERROR;
                 Base.findings := []; Base.raw_output := None;
                 Base.error_message :=
                   Some ("Echidna analysis failed: " +:+ Py.exn_str e) |}).

End WithHost.

End Echidna.

(** ** [docker/wrappers/*-wrapper.py]: the status the in-container scripts
    report for a tool run *)

Module Wrappers.

(** [run_slither]: [is_success = result.stdout.strip() and
    (result.returncode in [0, 1, 255])] *)
Definition slither_status (stdout : string) (returncode : Z) : string :=
  if negb (Py.is_blank stdout)
     && bool_decide (returncode ∈ [0; 1; 255])
  then "success" else "error".

(** [run_mythril]: [result.stdout.strip() and (result.returncode == 0 or
    result.returncode == 1)] *)
Definition mythril_status (stdout : string) (returncode : Z) : string :=
  if negb (Py.is_blank stdout) && ((returncode =? 0) || (returncode =? 1))
  then "success" else "error".

(** [run_echidna]: [result.returncode in [0, 1] and result.stdout.strip()] *)
Definition echidna_status (stdout : string) (returncode : Z) : string :=
  if bool_decide (returncode ∈ [0; 1]) && negb (Py.is_blank stdout)
  then "success" else "error".

End Wrappers.

(** ** A concrete host for worked examples

    [Json.loads] decodes the fragment of JSON without fractions, exponents and
    [\u] escapes the way [json.loads] does, and rejects everything else;
    [Json.dumps] writes a float-free value as compact JSON text. They serve to
    write down tool outputs as text and to run the parsers on them. The
    theorems below hold for every host. *)

Module Json.

Definition dquote : ascii := "034"%char.
Definition backslash : ascii := "092"%char.

Definition is_ws (c : ascii) : bool :=
  match nat_of_ascii c with
  | 32 | 9 | 10 | 13 => true
  | _ => false
  end%nat.

Fixpoint skip_ws (s : string) : string :=
  match s with
  | String c s' => if is_ws c then skip_ws s' else s
  | EmptyString => s
  end.

Definition digit (c : ascii) : option Z :=
  let n := nat_of_ascii c in
  if ((48 <=? n)%nat && (n <=? 57)%nat)%bool
  then Some (Z.of_nat n - 48) else None.

Fixpoint digits (s : string) (acc : Z) : Z * string :=
  match s with
  | String c s' =>
      match digit c with
      | Some d => digits s' (10 * acc + d)
      | None => (acc, s)
      end
  | EmptyString => (acc, s)
  end.

Definition starts_fraction (s : string) : bool :=
  match s with
  | String c _ =>
      Ascii.eqb c "." || Ascii.eqb c "e" || Ascii.eqb c "E"
  | EmptyString => false
  end.

(** A decimal numeral without superfluous leading zero, not followed by a
    fraction or an exponent; the sign is read by [value]. *)
Definition natural (s : string) : option (Z * string) :=
  match s with
  | String c s' =>
      match digit c with
      | Some 0 =>
          match s' with
          | String c' _ =>
              if bool_decide (is_Some (digit c')) || starts_fraction s' then None
              else Some (0, s')
          | EmptyString => Some (0, s')
          end
      | Some d =>
          let '(n, rest) := digits s' d in
          if starts_fraction rest then None else Some (n, rest)
      | None => None
      end
  | EmptyString => None
  end.

Definition unescape (c : ascii) : option ascii :=
  if Ascii.eqb c dquote then Some dquote
  else if Ascii.eqb c backslash then Some backslash
  else if Ascii.eqb c "/" then Some "/"%char
  else if Ascii.eqb c "n" then Some "010"%char
  else if Ascii.eqb c "t" then Some "009"%char
  else if Ascii.eqb c "r" then Some "013"%char
  else if Ascii.eqb c "b" then Some "008"%char
  else if Ascii.eqb c "f" then Some "012"%char
  else None.

(** The characters of a string literal, after its opening quote. *)
Fixpoint chars (s : string) : option (string * string) :=
  match s with
  | EmptyString => None
  | String c s' =>
      if Ascii.eqb c dquote then Some (EmptyString, s')
      else if Ascii.eqb c backslash then
        match s' with
        | String e s'' =>
            match unescape e, chars s'' with
            | Some c', Some (body, rest) => Some (String c' body, rest)
            | _, _ => None
            end
        | EmptyString => None
        end
      else if (nat_of_ascii c <? 32)%nat then None
      else
        match chars s' with
        | Some (body, rest) => Some (String c body, rest)
        | None => None
        end
  end.

Definition literal (word : string) (v : Py.json) (s : string)
  : option (Py.json * string) :=
  if String.prefix word s
  then Some (v, Py.drop_str (String.length word) s) else None.

(** A dict keeps one entry per key: the first position, the last value. *)
Definition dict_of (pairs : list (string * Py.json)) : Py.json :=
  Py.JObj (fold_left (fun d kv => Py.assoc_set kv.1 kv.2 d) pairs []).

Fixpoint value (fuel : nat) (s : string) : option (Py.json * string) :=
  match fuel with
  | O => None
  | S fuel' =>
      match skip_ws s with
      | EmptyString => None
      | String c rest as s0 =>
          if Ascii.eqb c "{" then
            match skip_ws rest with
            | String c' rest' =>
                if Ascii.eqb c' "}" then Some (Py.JObj [], rest')
                else
                  match members fuel' (String c' rest') with
                  | Some (kvs, r) => Some (dict_of kvs, r)
                  | None => None
                  end
            | EmptyString => None
            end
          else if Ascii.eqb c "[" then
            match skip_ws rest with
            | String c' rest' =>
                if Ascii.eqb c' "]" then Some (Py.JArr [], rest')
                else
                  match elements fuel' (String c' rest') with
                  | Some (vs, r) => Some (Py.JArr vs, r)
                  | None => None
                  end
            | EmptyString => None
            end
          else if Ascii.eqb c dquote then
            match chars rest with
            | Some (body, r) => Some (Py.JStr body, r)
            | None => None
            end
          else if Ascii.eqb c "-" then
            match natural rest with
            | Some (n, r) => Some (Py.JInt (- n), r)
            | None => None
            end
          else if Ascii.eqb c "t" then literal "true" (Py.JBool true) s0
          else if Ascii.eqb c "f" then literal "false" (Py.JBool false) s0
          else if Ascii.eqb c "n" then literal "null" Py.JNull s0
          else
            match natural s0 with
            | Some (n, r) => Some (Py.JInt n, r)
            | None => None
            end
      end
  end
with elements (fuel : nat) (s : string) : option (list Py.json * string) :=
  match fuel with
  | O => None
  | S fuel' =>
      match value fuel' s with
      | Some (v, r) =>
          match skip_ws r with
          | String c r' =>
              if Ascii.eqb c "]" then Some ([v], r')
              else if Ascii.eqb c "," then
                match elements fuel' r' with
                | Some (vs, r'') => Some (v :: vs, r'')
                | None => None
                end
              else None
          | EmptyString => None
          end
      | None => None
      end
  end
with members (fuel : nat) (s : string)
  : option (list (string * Py.json) * string) :=
  match fuel with
  | O => None
  | S fuel' =>
      match skip_ws s with
      | String c r0 =>
          if Ascii.eqb c dquote then
            match chars r0 with
            | Some (key, r1) =>
                match skip_ws r1 with
                | String c1 r2 =>
                    if Ascii.eqb c1 ":" then
                      match value fuel' r2 with
                      | Some (v, r3) =>
                          match skip_ws r3 with
                          | String c3 r4 =>
                              if Ascii.eqb c3 "}" then Some ([(key, v)], r4)
                              else if Ascii.eqb c3 "," then
                                match members fuel' r4 with
                                | Some (kvs, r5) => Some ((key, v) :: kvs, r5)
                                | None => None
                                end
                              else None
                          | EmptyString => None
                          end
                      | None => None
                      end
                    else None
                | EmptyString => None
                end
            | None => None
            end
          else None
      | EmptyString => None
      end
  end.

Definition loads (s : string) : option Py.json :=
  match value (2 * String.length s + 2) s with
  | Some (v, rest) =>
      match skip_ws rest with EmptyString => Some v | _ => None end
  | None => None
  end.

Fixpoint escape (s : string) : string :=
  match s with
  | EmptyString => EmptyString
  | String c s' =>
      if Ascii.eqb c dquote then String backslash (String dquote (escape s'))
      else if Ascii.eqb c backslash
      then String backslash (String backslash (escape s'))
      else if Ascii.eqb c "010" then String backslash (String "n" (escape s'))
      else if Ascii.eqb c "009" then String backslash (String "t" (escape s'))
      else if Ascii.eqb c "013" then String backslash (String "r" (escape s'))
      else String c (escape s')
  end.

Definition quote (s : string) : string :=
  String dquote (escape s +:+ String dquote EmptyString).

Definition join (sep : string) (l : list string) : string :=
  String.concat sep l.

Fixpoint dumps (v : Py.json) : string :=
  match v with
  | Py.JNull => "null"
  | Py.JBool true => "true"
  | Py.JBool false => "false"
  | Py.JInt n => Py.str_of_Z n
  | Py.JFloat _ => "NaN"
  | Py.JStr s => quote s
  | Py.JArr l => "[" +:+ join ", " (map dumps l) +:+ "]"
  | Py.JObj kvs =>
      "{" +:+ join ", " (map (fun kv => quote kv.1 +:+ ": " +:+ dumps kv.2) kvs)
      +:+ "}"
  end.

End Json.

(** ** The adapters behind one interface

    [ToolWrapper] in [tools/base.py] is the abstract interface; the three
    concrete wrappers are its implementations. *)

Module Adapter.

Inductive tool : Type := SLITHER | MYTHRIL | ECHIDNA.

Definition analyze (h : host) (t : tool) (contract_path : string)
  : Docker.M Base.ToolResult :=
  match t with
  | SLITHER => Slither.analyze h contract_path
  | MYTHRIL => Mythril.analyze h contract_path
  | ECHIDNA => Echidna.analyze h contract_path
  end.

Definition _parse_wrapper_output (h : host) (t : tool)
    (output stderr contract_path : string) : Py.E (option (list Finding)) :=
  match t with
  | SLITHER => Slither._parse_wrapper_output h output stderr contract_path
  | MYTHRIL => Mythril._parse_wrapper_output h output stderr contract_path
  | ECHIDNA => Echidna._parse_wrapper_output h output stderr contract_path
  end.

(** Whether [analyze] finds a target and goes on to [run_in_container]:
    Mythril and Echidna return early on a directory without a matching
    source file. *)
Definition launches (h : host) (t : tool) (contract_path : string) : bool :=
  match t with
  | SLITHER => true
  | MYTHRIL =>
      negb (path_is_dir h contract_path)
      || negb (bool_decide (path_glob h contract_path "*.sol" = []))
  | ECHIDNA =>
      negb (path_is_dir h contract_path)
      || negb (bool_decide
           ((if path_exists h (path_join h contract_path "echidna")
             then path_glob h (path_join h contract_path "echidna") "Test*.sol"
             else path_glob h contract_path "**/Test*.sol") = []))
  end.

(** The methods a caller may invoke on a wrapper object. *)
Inductive call : Type :=
| Initialize
| Cleanup
| Run_in_container (command : list string) (contract_path working_dir : string)
    (additional_volumes environment : option (list (string * string)))
    (network_enabled : bool)
| Analyze (t : tool) (contract_path : string).

(** The state after a call, whether it returned or raised. *)
Definition after (h : host) (c : call) (s : Docker.state) : Docker.state :=
  match c with
  | Initialize => (Docker.initialize h s).2
  | Cleanup => (Docker.cleanup h s).2
  | Run_in_container command p w vols env net =>
      (Docker.run_in_container h command p w vols env net s).2
  | Analyze t p => (analyze h t p s).2
  end.

Definition after_all (h : host) (cs : list call) (s : Docker.state)
  : Docker.state :=
  fold_left (fun s c => after h c s) cs s.

(** A wrapper object fresh from its constructor, nothing executed yet. *)
Definition fresh (tool_name docker_image : string)
    (config : option (gmap string Z)) (unique_id : string) : Docker.state :=
  {| Docker.self := Docker.init tool_name docker_image config unique_id;
     Docker.spawned := [] |}.

End Adapter.

(** ** The report aggregator

    Modelled from the spec: the code that folds tool results into a report is
    not in the sources. Section 4.4: "all findings are concatenated (no
    cross-tool deduplication is attempted in the core)"; section 4.3: the
    report is [failed] "only if zero adapters produced a success result and
    at least one was attempted; completed otherwise". The cross-reference id
    of a finding is the ["swc_id"] entry the adapters store in
    [raw_output]. *)

Module Aggregator.

Definition swc_of (f : Finding) : option string :=
  match raw_output f with
  | Py.JObj kvs =>
      match Py.assoc "swc_id" kvs with
      | Some (Py.JStr s) => if String.eqb s "" then None else Some s
      | _ => None
      end
  | _ => None
  end.





End Aggregator.

(** ** The risk score in the words of the spec (section 4.4) *)

Module Spec.





End Spec.

(** ** Specifications of wrapper methods

    [triple P m Q R]: started in a state satisfying [P], the computation [m]
    either returns a value [x] in a state satisfying [Q x], or raises an
    exception [e] in a state satisfying [R e]. *)

Module Logic.

Definition triple {A} (P : Docker.state -> Prop) (m : Docker.M A)
    (Q : A -> Docker.state -> Prop) (R : Py.exn -> Docker.state -> Prop)
  : Prop :=
  forall s, P s ->
    match m s with
    | (inr x, s') => Q x s'
    | (inl e, s') => R e s'
    end.

(** [m] maintains [I], however it ends. *)
Definition maintains {A} (I : Docker.state -> Prop) (m : Docker.M A) : Prop :=
  triple I m (fun _ => I) (fun _ => I).

(** [m] always returns, and what it returns satisfies [Q]. *)
Definition returns {A} (m : Docker.M A) (Q : A -> Prop) : Prop :=
  triple (fun _ => True) m (fun x _ => Q x) (fun _ _ => False).

(** [m] may raise, but what it returns satisfies [Q]. *)
Definition yields {A} (m : Docker.M A) (Q : A -> Prop) : Prop :=
  triple (fun _ => True) m (fun x _ => Q x) (fun _ _ => True).

(** The state with one more command line on record. *)
Definition logged (cmd : list string) (s : Docker.state) : Docker.state :=
  {| Docker.self := Docker.self s;
     Docker.spawned := Docker.spawned s ++ [cmd] |}.

(** An invariant that speaks of the wrapper object only. *)
Definition on_self (I : Docker.state -> Prop) : Prop :=
  forall s cmd, I s -> I (logged cmd s).

Definition no_container (s : Docker.state) : Prop :=
  Docker._container_id (Docker.self s) = None.

(** The results of the normal paths of [analyze], and of all its paths. *)
Definition completed (res : Base.ToolResult) : Prop :=
  Base.status res = Base.SUCCESS \/ Base.status res = Base.ERROR.

Definition reported (res : Base.ToolResult) : Prop :=
  Base.status res = Base.SUCCESS \/ Base.status res = Base.TIMEOUT
  \/ Base.status res = Base.ERROR.

(** [self.config.get('timeout', 300)] *)
Definition configured_timeout (s : Docker.state) : Z :=
  default 300 (Docker.config (Docker.self s) !! "timeout").

(** A [docker run ...] command line. *)
Definition is_docker_run (cmd : list string) : bool :=
  match cmd with
  | program :: verb :: _ => String.eqb program "docker" && String.eqb verb "run"
  | _ => false
  end.

(** The [docker kill] command line for the wrapper's named container. *)
Definition kill_cmd (s : Docker.state) : list string :=
  ["docker"; "kill"; Docker.container_name (Docker.self s)].


(** The loop body returned a finding for the issue (it did not raise). *)
Definition handled (body : Py.json -> Py.E Finding) (issue : Py.json) : Prop :=
  exists f, body issue = inr f.


End Logic.

(** ** Worked-example fixtures *)

Module Example.

(** A host with the concrete JSON codec, on which the contract path is a
    single file in the current directory and the [docker run] command behaves
    as [run]; every other command exits at once with code 0. The two
    patterns of the Echidna text parser match what [failed] and [asserted]
    say. *)
Definition host_with (run : process) (failed : string -> list string)
    (asserted : string -> list (string * Z)) : host :=
  {| json_loads := Json.loads;
     py_str := Json.dumps;
     re_failed := failed;
     re_assertion := asserted;
     path_is_file := fun _ => true;
     path_is_dir := fun _ => false;
     path_exists := fun _ => true;
     path_name := fun p => p;
     path_parent := fun _ => ".";
     path_absolute := fun p => "/work/" +:+ p;
     path_join := fun a b => a +:+ "/" +:+ b;
     path_glob := fun _ _ => [];
     spawn := fun _ cmd =>
       if Logic.is_docker_run cmd then run else Runs 0 "" "" 0 |}.

Definition host_running (run : process) : host :=
  host_with run (fun _ => []) (fun _ => []).

Definition wrapper (t : Adapter.tool) : Docker.state :=
  match t with
  | Adapter.SLITHER =>
      Adapter.fresh Slither.tool_name Slither.docker_image None "1700000000000000-4242"
  | Adapter.MYTHRIL =>
      Adapter.fresh Mythril.tool_name Mythril.docker_image None "1700000000000001-4242"
  | Adapter.ECHIDNA =>
      Adapter.fresh Echidna.tool_name Echidna.docker_image None "1700000000000002-4242"
  end.

(** What the in-container script prints when the contract is missing, before
    it exits with code 1. *)
Definition missing_contract : process :=
  Runs 1
    ("Error: Contract path Token.sol does not exist"
     +:+ String "010" EmptyString)
    "" 1.

(** The text a wrapper script prints for a tool run: a JSON object with
    [status], [returncode], [stdout], [stderr]. *)
Definition wrapper_json (status : string) (returncode : Z)
    (stdout stderr : string) : string :=
  Json.dumps (Py.JObj [("status", Py.JStr status);
                       ("returncode", Py.JInt returncode);
                       ("stdout", Py.JStr stdout);
                       ("stderr", Py.JStr stderr);
                       ("solc_version", Py.JStr "0.8.19")]).

(** A Mythril report with one reentrancy issue. *)
Definition mythril_issue : Py.json :=
  Py.JObj [("title", Py.JStr "External Call To User-Supplied Address");
           ("swc-id", Py.JStr "SWC-107");
           ("severity", Py.JStr "High");
           ("lineno", Py.JInt 12);
           ("filename", Py.JStr "Token.sol")].

Definition mythril_report : string :=
  Json.dumps (Py.JObj [("success", Py.JBool true);
                       ("issues", Py.JArr [mythril_issue])]).


(** A Slither detector as the tool reports a reentrancy. *)
Definition reentrancy_detector : Py.json :=
  Py.JObj
    [("check", Py.JStr "reentrancy-eth");
     ("impact", Py.JStr "High");
     ("confidence", Py.JStr "Medium");
     ("description", Py.JStr "Reentrancy in Bank.withdraw(uint256)");
     ("elements",
      Py.JArr
        [Py.JObj
           [("type", Py.JStr "function");
            ("name", Py.JStr "withdraw");
            ("source_mapping",
             Py.JObj [("filename", Py.JStr "Token.sol");
                      ("lines", Py.JArr [Py.JInt 10; Py.JInt 11;
                                         Py.JInt 12])])]])].

Definition reentrancy_vuln : Vulnerability :=
  {| v_title := "Reentrancy in withdraw()";
     v_vulnerability_type := REENTRANCY;
     v_severity := HIGH;
     v_confidence := 9 # 10;
     v_swc_id := Some "SWC-107" |}.


(** The finding [MythrilWrapper._parse_output] builds for [mythril_issue]. *)
Definition mythril_finding : Finding :=
  {| tool := "mythril";
     title := Py.JStr "External Call To User-Supplied Address";
     description := Py.JStr "";
     vulnerability_type := REENTRANCY;
     severity := HIGH;
     confidence := 8 # 10;
     location :=
       Some {| file_path := Py.JStr "Token.sol"; start_line := Py.JInt 12;
               end_line := Py.JInt 12; code_snippet := Py.JStr "" |};
     raw_output :=
       Py.JObj [("title", Py.JStr "External Call To User-Supplied Address");
                ("swc-id", Py.JStr "SWC-107");
                ("severity", Py.JStr "High");
                ("lineno", Py.JInt 12);
                ("filename", Py.JStr "Token.sol");
                ("swc_id", Py.JStr "SWC-107")] |}.

(** Mythril found the issue and exited with code 1; the in-container script
    wrapped its report. *)
Definition mythril_run : process :=
  Runs 5 (wrapper_json "success" 1 mythril_report "") "" 1.




Definition report : Report.AnalysisReport :=
  Report.new "Token" None (Some [reentrancy_vuln]) None.

End Example.


(** ** [docker/wrappers/slither-wrapper.py], [mythril-wrapper.py],
    [echidna-wrapper.py] *)

Module Script.

(** What [subprocess.run(..., capture_output=True, text=True)] returns. *)
Record CompletedProcess : Type := {
  stdout : string;
  stderr : string;
  returncode : Z;
}.

(** What a wrapper script sees of its container. An exception is kept as
    its text [str(e)], the only use the scripts make of one. *)
Record container : Type := {
  os_path_exists : string -> bool;
  os_path_isfile : string -> bool;
  os_path_dirname : string -> string;
  os_path_basename : string -> string;
  os_path_join : string -> string -> string;
  (** [os.walk(directory)]: each directory with the files in it *)
  os_walk : string -> list (string * list string);
  (** [open(path, 'r').read()], or [None] when it raises *)
  read : string -> option string;
  (** [subprocess.run(cmd, capture_output=True, text=True, cwd=cwd)]: the
      completed process, or the text of the exception the call raises *)
  subprocess_run : list string -> option string -> string + CompletedProcess;
  (** [str(subprocess.CalledProcessError(returncode, cmd))] *)
  called_process_error : Z -> list string -> string;
  (** [json.dumps(result, indent=2)] *)
  json_dumps : Py.json -> string;
}.

(** The dict a [run_*] function returns, by its keys [status],
    [returncode], [stdout], [stderr] and [solc_version]. *)
Record report : Type := {
  r_status : string;
  r_returncode : Z;
  r_stdout : string;
  r_stderr : string;
  r_solc_version : string;
}.

Definition to_json (r : report) : Py.json :=
  Py.JObj [("status", Py.JStr (r_status r));
           ("returncode", Py.JInt (r_returncode r));
           ("stdout", Py.JStr (r_stdout r));
           ("stderr", Py.JStr (r_stderr r));
           ("solc_version", Py.JStr (r_solc_version r))].

(** [s.strip()] *)
Definition strip (s : string) : string :=
  String.rev (Py.lstrip (String.rev (Py.lstrip s))).

(** [s.endswith(suffix)] *)
Definition endswith (suffix s : string) : bool :=
  String.prefix (String.rev suffix) (String.rev s).

(** What the process has written to its standard output after these
    [print] calls. *)
Definition printed (lines : list string) : string :=
  String.concat "" (map (fun l => l +:+ String "010" EmptyString) lines).

Section WithContainer.
Context (c : container).

(** [subprocess.run(cmd, check=True)] *)
Definition run_checked (cmd : list string) : string + CompletedProcess :=
  match subprocess_run c cmd None with
  | inl e => inl e
  | inr r =>
      if negb (returncode r =? 0)
      then inl (called_process_error c (returncode r) cmd)
      else inr r
  end.

(** The dict of the [except Exception as e] clause. *)
Definition failed (e : string) : report :=
  {| r_status := "error"; r_returncode := -1; r_stdout := "";
     r_stderr := e; r_solc_version := "unknown" |}.

(** [cwd=os.path.dirname(contract_path) if os.path.isfile(contract_path)
    else contract_path] *)
Definition tool_cwd (contract_path : string) : string :=
  if os_path_isfile c contract_path then os_path_dirname c contract_path
  else contract_path.

(** [run_slither]: the lines printed and the dict returned. *)
Definition run_slither (contract_path output_format : string)
  : list string * report :=
  let line := "Analyzing contract: " +:+ contract_path in
  match run_checked ["detect-solc-version.py"; contract_path] with
  | inl e => ([line], failed e)
  | inr version_result =>
      let solc_version := strip (stdout version_result) in
      let lines := [line; "Using Solidity compiler: " +:+ solc_version] in
      let cmd := ["slither"; contract_path; "--json"; "-"] in
      match subprocess_run c cmd (Some (tool_cwd contract_path)) with
      | inl e => (lines, failed e)
      | inr result =>
          (lines,
           {| r_status :=
                Wrappers.slither_status (stdout result) (returncode result);
              r_returncode := returncode result;
              r_stdout := stdout result;
              r_stderr := stderr result;
              r_solc_version := solc_version |})
      end
  end.

(** [run_mythril] *)
Definition run_mythril (contract_path output_format : string)
  : list string * report :=
  let line := "Analyzing contract: " +:+ contract_path in
  match run_checked ["detect-solc-version.py"; contract_path] with
  | inl e => ([line], failed e)
  | inr version_result =>
      let solc_version := strip (stdout version_result) in
      let lines := [line; "Using Solidity compiler: " +:+ solc_version] in
      let cmd :=
        ["myth"; "analyze"; contract_path; "--execution-timeout"; "120";
         "--solver-timeout"; "2000"; "--max-depth"; "8"; "-o"; "json"] in
      match subprocess_run c cmd (Some (tool_cwd contract_path)) with
      | inl e => (lines, failed e)
      | inr result =>
          (lines,
           {| r_status :=
                Wrappers.mythril_status (stdout result) (returncode result);
              r_returncode := returncode result;
              r_stdout := stdout result;
              r_stderr := stderr result;
              r_solc_version := solc_version |})
      end
  end.

(** [find_echidna_contracts] *)
Definition find_echidna_contracts (directory : string) : list string :=
  flat_map
    (fun entry =>
       flat_map
         (fun file =>
            if endswith ".sol" file
            then
              let file_path := os_path_join c entry.1 file in
              match read c file_path with
              | Some content =>
                  if Py.contains "echidna_" (Py.lower content)
                     || Py.contains "function test" (Py.lower content)
                  then [file_path] else []
              | None => []
              end
            else [])
         entry.2)
    (os_walk c directory).

(** [run_echidna] *)
Definition run_echidna (contract_path output_format : string)
  : list string * report :=
  let line := "Analyzing contract: " +:+ contract_path in
  match run_checked ["detect-solc-version.py"; contract_path] with
  | inl e => ([line], failed e)
  | inr version_result =>
      let solc_version := strip (stdout version_result) in
      let lines := [line; "Using Solidity compiler: " +:+ solc_version] in
      let target :=
        if os_path_isfile c contract_path
        then inr (os_path_basename c contract_path,
                  os_path_dirname c contract_path, lines)
        else
          match find_echidna_contracts contract_path with
          | [] =>
              inl ("No Echidna test contracts found in " +:+ contract_path)
          | first :: _ =>
              let contract_file := os_path_basename c first in
              inr (contract_file, contract_path,
                   (lines ++ ["Found Echidna test contract: "
                              +:+ contract_file])%list)
          end in
      match target with
      | inl e => (lines, failed e)
      | inr (contract_file, working_dir, lines) =>
          let cmd :=
            ["echidna-test"; contract_file; "--test-limit"; "1000";
             "--timeout"; "60"; "--corpus-dir"; "/tmp/echidna_corpus";
             "--format"; "text"] in
          match subprocess_run c cmd (Some working_dir) with
          | inl e => (lines, failed e)
          | inr result =>
              (lines,
               {| r_status :=
                    Wrappers.echidna_status (stdout result)
                      (returncode result);
                  r_returncode := returncode result;
                  r_stdout := stdout result;
                  r_stderr := stderr result;
                  r_solc_version := solc_version |})
          end
      end
  end.

(** The [# Output results] part of [main]. *)
Definition output_lines (output_format : string) (result : report)
  : list string :=
  if String.eqb output_format "json" then [json_dumps c (to_json result)]
  else
    (["Status: " +:+ r_status result;
      "Solc Version: " +:+ r_solc_version result;
      "Return Code: " +:+ Py.str_of_Z (r_returncode result);
      String "010" "Stdout:";
      r_stdout result]
     ++ (if negb (String.eqb (r_stderr result) "")
         then [String "010" "Stderr:"; r_stderr result] else []))%list.

(** [main]: the three scripts differ in their name and in the [run_*]
    function they call. The result is the lines printed and the argument of
    [sys.exit]. *)
Definition main (name : string)
    (run : string -> string -> list string * report) (argv : list string)
  : list string * Z :=
  match argv with
  | _ :: contract_path :: rest =>
      let output_format :=
        match rest with fmt :: _ => fmt | [] => "json" end in
      if negb (os_path_exists c contract_path)
      then
        (["Error: Contract path " +:+ contract_path +:+ " does not exist"], 1)
      else
        let '(lines, result) := run contract_path output_format in
        ((lines ++ output_lines output_format result)%list,
         r_returncode result)
  | _ => (["Usage: " +:+ name +:+ " <contract_path> [output_format]"], 1)
  end.

(** The script an adapter starts in its container. *)
Definition wrapper_script (t : Adapter.tool) (argv : list string)
  : list string * Z :=
  match t with
  | Adapter.SLITHER => main "slither-wrapper.py" run_slither argv
  | Adapter.MYTHRIL => main "mythril-wrapper.py" run_mythril argv
  | Adapter.ECHIDNA => main "echidna-wrapper.py" run_echidna argv
  end.

End WithContainer.

End Script.

(** ** [models/report.py], continued *)

Module Coverage.
Import Report.

(** [get_swc_coverage]: the dict [covered], in insertion order. *)
Definition get_swc_coverage (r : AnalysisReport) : list (string * bool) :=
  fold_left
    (fun covered vuln =>
       match v_swc_id vuln with
       | Some id =>
           if negb (String.eqb id "") then Py.assoc_set id true covered
           else covered
       | None => covered
       end)
    (vulnerabilities r) [].

(** [for severity in SeverityLevel]: the members in definition order. *)
Definition all_severities : list SeverityLevel :=
  [CRITICAL; HIGH; MEDIUM; LOW; INFO].

(** Some vulnerability of [vs] carries the non-empty SWC id [k]. *)
Definition covers (vs : list Vulnerability) (k : string) : Prop :=
  k <> "" /\ exists v, v ∈ vs /\ v_swc_id v = Some k.

End Coverage.

(** ** [config/settings.py]: the values of [SeverityLevel] *)

Module Settings.

(** [severity.value] *)
Definition SeverityLevel_value (s : SeverityLevel) : string :=
  match s with
  | CRITICAL => "critical"
  | HIGH => "high"
  | MEDIUM => "medium"
  | LOW => "low"
  | INFO => "info"
  end.

End Settings.

(** ** [tools/base.py]: a wrapper as an asynchronous context manager *)

Module Session.

Section WithHost.
Context (h : host).

(** [__aenter__]: [await self.initialize()], then [return self]. *)
Definition __aenter__ : Docker.M unit := Docker.initialize h.

(** [__aexit__]: [await self.cleanup()]. It returns [None], so an exception
    of the body is not suppressed. *)
Definition __aexit__ : Docker.M unit := Docker.cleanup h.

(** [async with wrapper: body]. The exit method runs however the body
    ends; what it raises replaces the outcome of the body. *)
Definition async_with {A} (body : Docker.M A) : Docker.M A :=
  _ ← __aenter__;
  ((fun s =>
      let '(outcome, s') := body s in
      match __aexit__ s' with
      | (inl e, s'') => (inl e, s'')
      | (inr _, s'') => (outcome, s'')
      end) : Docker.M A).

End WithHost.

End Session.

(** ** [models/contract.py] *)

Module Contract.

(** [Contract.validate_address] on ASCII text; [inl] carries the message of
    the [ValueError] raised. *)
Definition validate_address (v : option string) : string + option string :=
  match v with
  | None => inr None
  | Some a =>
      if negb (String.prefix "0x" a) || negb (String.length a =? 42)%nat
      then inl "Invalid Ethereum address format"
      else inr (Some (Py.lower a))
  end.

End Contract.

(** ** [docker/scripts/detect-solc-version.py] *)

Module Solc.

(** The exceptions [select_best_version] can raise. *)
Inductive error : Type := ValueError | IndexError.

(** [s.split(sep)] for a separator of one character: never empty. *)
Fixpoint split (sep : ascii) (s : string) : list string :=
  match s with
  | EmptyString => [EmptyString]
  | String c s' =>
      if Ascii.eqb c sep then EmptyString :: split sep s'
      else
        match split sep s' with
        | first :: rest => String c first :: rest
        | [] => [String c EmptyString]
        end
  end.

(** [max(l)] on strings: Python compares them by code point, and keeps the
    first of the greatest. *)
Definition str_max (l : list string) : option string :=
  match l with
  | [] => None
  | x :: l' => Some (fold_left (fun m v => if String.ltb m v then v else m) l' x)
  end.

(** [available[-1]] *)
Definition last_available (available : list string) : error + string :=
  match last available with
  | Some v => inr v
  | None => inl IndexError
  end.

(** The loop that collects [compatible] in the caret branch. *)
Definition compatible (major minor : string) (available : list string)
  : list string :=
  List.filter
    (fun v =>
       match split "." v with
       | v0 :: v1 :: _ => String.eqb v0 major && String.eqb v1 minor
       | _ => false
       end)
    available.

(** [next((v for v in available if v.startswith(p)), available[-1])]: the
    default is evaluated before the search. *)
Definition first_starting (p : string) (available : list string)
  : error + string :=
  match last_available available with
  | inl e => inl e
  | inr fallback =>
      inr (default fallback (head (List.filter (String.prefix p) available)))
  end.

Section WithRegex.
(** [re.match(r'^\d+\.\d+\.\d+$', s)] finds a match. *)
Context (is_exact_version : string -> bool).

(** [select_best_version] *)
Definition select_best_version (version_spec : string)
    (available : list string) : error + string :=
  let version_spec := Script.strip version_spec in
  let fallback :=
    match last available with Some v => inr v | None => inr "0.8.19" end in
  if String.prefix "^" version_spec then
    let base_version := Py.drop_str 1 version_spec in
    match take 2 (split "." base_version) with
    | [major; minor] =>
        match str_max (compatible major minor available) with
        | Some v => inr v
        | None => last_available available
        end
    | _ => inl ValueError
    end
  else if String.prefix ">=" version_spec && Py.contains "<" version_spec then
    if Py.contains "0.6" version_spec then first_starting "0.6" available
    else if Py.contains "0.7" version_spec then first_starting "0.7" available
    else fallback
  else if is_exact_version version_spec then
    if bool_decide (version_spec ∈ available) then inr version_spec
    else last_available available
  else fallback.

End WithRegex.

End Solc.
(** ** Further specifications of the wrappers *)

Module Props.

(** The shape of a result as [analyze] builds it: a success carries the raw
    output and no error message; any other result carries an error message
    and no findings. *)
Definition well_formed_result (res : Base.ToolResult) : Prop :=
  match Base.status res with
  | Base.SUCCESS =>
      Base.error_message res = None /\ is_Some (Base.raw_output res)
  | _ => Base.findings res = [] /\ is_Some (Base.error_message res)
  end.

(** The name under which each adapter reports. *)
Definition name_of (t : Adapter.tool) : string :=
  match t with
  | Adapter.SLITHER => Slither.tool_name
  | Adapter.MYTHRIL => Mythril.tool_name
  | Adapter.ECHIDNA => Echidna.tool_name
  end.

(** A [docker run] of the wrapper's named container that is removed on exit,
    mounts one directory read-only at [/contracts], has no network, no
    capabilities and no new privileges. *)
Definition isolated (me : Docker.DockerToolWrapper) (cmd : list string)
  : Prop :=
  exists (dir : string) (limits command : list string),
    cmd = (["docker"; "run"; "--rm"; "--name"; Docker.container_name me;
            "-w"; "/contracts"; "-v"; dir +:+ ":/contracts:ro"]
           ++ limits
           ++ ["--security-opt"; "no-new-privileges"; "--cap-drop"; "ALL";
               "--network"; "none"; Docker.docker_image me]
           ++ command)%list
    /\ length limits = 4%nat.

(** The states [analyze] can end in when started in [s]: nothing was
    executed, or one isolated container ran, or it ran and was killed. *)
Definition launched_at_most_once (s s' : Docker.state) : Prop :=
  s' = s
  \/ exists run,
       isolated (Docker.self s) run
       /\ (s' = Logic.logged run s
           \/ s' = Logic.logged (Logic.kill_cmd s) (Logic.logged run s)).

(** [bool(self._container_id)] is false. *)
Definition container_id_falsy (s : Docker.state) : Prop :=
  Docker._container_id (Docker.self s) = None
  \/ Docker._container_id (Docker.self s) = Some "".

(** The two command lines of [initialize]. *)
Definition images_cmd (s : Docker.state) : list string :=
  ["docker"; "images"; "-q"; Docker.docker_image (Docker.self s)].

Definition pull_cmd (s : Docker.state) : list string :=
  ["docker"; "pull"; Docker.docker_image (Docker.self s)].

End Props.

(** ** Further specifications of the parsers *)

Module ParserProps.

(** What every finding of an adapter satisfies: it names the adapter, its
    confidence is a probability, and its severity is not critical. *)
Definition sound_finding (t : Adapter.tool) (f : Finding) : Prop :=
  tool f = Props.name_of t
  /\ (0 <= confidence f /\ confidence f <= 1)%Q
  /\ severity f <> CRITICAL.

(** What a parser returned, when it returned a list. *)
Definition parsed_sound (t : Adapter.tool) (r : option (list Finding))
  : Prop :=
  match r with Some fs => Forall (sound_finding t) fs | None => True end.

(** A test entry of Echidna's JSON report that counts as failed:
    [status == "failed" or passed == False]. *)
Definition test_failed (test_result : Py.json) : bool :=
  match test_result with
  | Py.JObj kvs =>
      Py.eq_str (default Py.JNull (Py.assoc "status" kvs)) "failed"
      || Py.eq_False (default Py.JNull (Py.assoc "passed" kvs))
  | _ => false
  end.

End ParserProps.


(** ** The wrapper scripts seen from the adapters *)

Module ScriptProps.

Definition is_capital (c : ascii) : bool :=
  let n := nat_of_ascii c in ((65 <=? n)%nat && (n <=? 90)%nat)%bool.

(** [json.loads] raises [JSONDecodeError] on a text that begins with a
    capital letter other than [N] and [I], the initials of [NaN] and
    [Infinity]. *)
Definition rejects_prose (h : host) : Prop :=
  forall c rest,
    is_capital c = true -> c <> "N"%char -> c <> "I"%char ->
    json_loads h (String c rest) = None.

(** What the script started by adapter [t] writes to its standard output. *)
Definition script_stdout (c : Script.container) (t : Adapter.tool)
    (argv : list string) : string :=
  Script.printed (Script.wrapper_script c t argv).1.

(** The first line a [run_*] function prints begins with [A]. *)
Definition starts_analyzing (out : list string * Script.report) : Prop :=
  exists l ls, out.1 = String "A" l :: ls.

(** A container in which the version detection prints [0.8.19] and the
    tool prints [report] and exits with code 1. *)
Definition container_reporting (report : string) : Script.container :=
  {| Script.os_path_exists := fun _ => true;
     Script.os_path_isfile := fun _ => true;
     Script.os_path_dirname := fun _ => "/contracts";
     Script.os_path_basename := fun p => p;
     Script.os_path_join := fun a b => a +:+ "/" +:+ b;
     Script.os_walk := fun _ => [];
     Script.read := fun _ => None;
     Script.subprocess_run := fun cmd _ =>
       match cmd with
       | "detect-solc-version.py" :: _ =>
           inr {| Script.stdout := "0.8.19" +:+ String "010" EmptyString;
                  Script.stderr := ""; Script.returncode := 0 |}
       | _ =>
           inr {| Script.stdout := report; Script.stderr := "";
                  Script.returncode := 1 |}
       end;
     Script.called_process_error := fun rc _ =>
       "Command returned non-zero exit status " +:+ Py.str_of_Z rc;
     Script.json_dumps := Json.dumps |}.

(** Slither's report of one reentrancy. *)
Definition slither_report : string :=
  Json.dumps
    (Py.JObj [("success", Py.JBool true);
              ("results",
               Py.JObj [("detectors",
                         Py.JArr [Example.reentrancy_detector])])]).

End ScriptProps.

(** ** Further hosts for examples *)

Module Fixtures.

(** A host on which every path is a directory without Solidity files. *)
Definition empty_directory : host :=
  {| json_loads := Json.loads;
     py_str := Json.dumps;
     re_failed := fun _ => [];
     re_assertion := fun _ => [];
     path_is_file := fun _ => false;
     path_is_dir := fun _ => true;
     path_exists := fun _ => false;
     path_name := fun p => p;
     path_parent := fun _ => ".";
     path_absolute := fun p => "/work/" +:+ p;
     path_join := fun a b => a +:+ "/" +:+ b;
     path_glob := fun _ _ => [];
     spawn := fun _ _ => Runs 0 "" "" 0 |}.

(** A host behaving as [Example.host_running] except for its processes. *)
Definition host_spawning (run : list (list string) -> list string -> process)
  : host :=
  {| json_loads := Json.loads;
     py_str := Json.dumps;
     re_failed := fun _ => [];
     re_assertion := fun _ => [];
     path_is_file := fun _ => true;
     path_is_dir := fun _ => false;
     path_exists := fun _ => true;
     path_name := fun p => p;
     path_parent := fun _ => ".";
     path_absolute := fun p => "/work/" +:+ p;
     path_join := fun a b => a +:+ "/" +:+ b;
     path_glob := fun _ _ => [];
     spawn := run |}.

(** No [docker] executable: creating any process raises
    [FileNotFoundError], a subclass of [OSError]. *)
Definition no_docker : host :=
  host_spawning (fun _ _ =>
    Spawn_fails
      (Py.Exn Py.OSError "[Errno 2] No such file or directory: 'docker'")).

(** The image is not present and cannot be pulled. *)
Definition registry_down : host :=
  host_spawning (fun _ cmd =>
    match cmd with
    | _ :: "pull" :: _ => Runs 3 "" "pull access denied" 1
    | _ => Runs 0 "" "" 0
    end).

(** The finding [SlitherWrapper._parse_output] builds for
    [Example.reentrancy_detector]. *)
Definition reentrancy_finding : Finding :=
  {| tool := "slither";
     title := Py.JStr "reentrancy-eth";
     description := Py.JStr "Reentrancy in Bank.withdraw(uint256)";
     vulnerability_type := REENTRANCY;
     severity := HIGH;
     confidence := 7 # 10;
     location :=
       Some {| file_path := Py.JStr "Token.sol"; start_line := Py.JInt 10;
               end_line := Py.JInt 12; code_snippet := Py.JStr "" |};
     raw_output :=
       match Example.reentrancy_detector with
       | Py.JObj kvs => Py.JObj (kvs ++ [("swc_id", Py.JStr "SWC-107")])
       | other => other
       end |}.

(** The [tests] part of a JSON report of Echidna: one property violated,
    one held. *)
Definition echidna_tests : list (string * Py.json) :=
  [("echidna_balance_never_drops",
    Py.JObj [("status", Py.JStr "failed");
             ("counterexample", Py.JStr "withdraw(1)")]);
   ("echidna_owner_is_constant",
    Py.JObj [("status", Py.JStr "passed"); ("passed", Py.JBool true)])].



(** The pattern for an exact version, three dot-separated runs of decimal
    digits, on ASCII text. *)
Definition all_digits (s : string) : bool :=
  negb (String.eqb s "")
  && forallb (fun c => bool_decide (is_Some (Json.digit c)))
       (list_ascii_of_string s).

Definition is_exact_version (s : string) : bool :=
  match Solc.split "." s with
  | [a; b; c] => all_digits a && all_digits b && all_digits c
  | _ => false
  end.

(** The compilers installed in a container, as [solc-select versions]
    lists them. *)
Definition installed : list string := ["0.7.6"; "0.8.19"; "0.8.9"].

End Fixtures.
(** * Properties *)

(** ** The risk score and the report invariant *)

Section ReportFacts.
Import Report.
Local Open Scope Q_scope.


















End ReportFacts.

Section RiskScore.
Import Report.
Local Open Scope Q_scope.







End RiskScore.

Section Invariant.
Import Report.

(** C5, what the code guarantees. A report built without explicit
    [vulnerabilities] and [metrics], such as the one
    [VulnHunterPipeline.analyze] returns, satisfies
    [metrics.total_vulnerabilities == len(vulnerabilities)]. *)
Theorem default_report_count_matches (name target : string)
    (st : option AnalysisStatus) (config : option unit) :
  count_matches (new name st None None) /\
  count_matches (Pipeline.analyze target config).
Proof. split; reflexivity. Qed.

(** C5 as stated fails: the constructor accepts a list of vulnerabilities and
    leaves [metrics] at its default. *)
Lemma report_count_mismatch :
  ~ count_matches (new "Token" None (Some [Example.reentrancy_vuln]) None).
Proof. unfold count_matches. simpl. discriminate. Qed.

End Invariant.

(** ** Order independence of the aggregation *)

Section Aggregation.
Import Report.








End Aggregation.

(** ** Rules for the wrapper monad *)

Section Rules.
Import Logic.
Context (h : host).

Lemma triple_ret {A} (P : Docker.state -> Prop) (x : A) Q R :
  (forall s, P s -> Q x s) -> triple P (mret x) Q R.
Proof. intros H s Hs. by apply H. Qed.

Lemma triple_bind {A B} P (m : Docker.M A) (f : A -> Docker.M B) Q1 Q R :
  triple P m Q1 R -> (forall x, triple (Q1 x) (f x) Q R) ->
  triple P (m ≫= f) Q R.
Proof.
  intros Hm Hf s Hs. specialize (Hm s Hs).
  unfold mbind, Docker.M_bind. destruct (m s) as [[e|x] s']; [done|].
  by apply Hf.
Qed.

Lemma triple_raise {A} P k msg (Q : A -> Docker.state -> Prop)
    (R : Py.exn -> Docker.state -> Prop) :
  (forall s, P s -> R (Py.Exn k msg) s) -> triple P (Docker.raise k msg) Q R.
Proof. intros H s Hs. by apply H. Qed.

Lemma triple_lift {A} P (m : Py.E A) (Q : A -> Docker.state -> Prop)
    (R : Py.exn -> Docker.state -> Prop) :
  (forall s, P s -> match m with inr x => Q x s | inl e => R e s end) ->
  triple P (Docker.lift m) Q R.
Proof.
  intros H s Hs. specialize (H s Hs). unfold Docker.lift. by destruct m.
Qed.

Lemma triple_try {A} P (body : Docker.M A) handler Q R1 R :
  triple P body Q R1 -> (forall e, triple (R1 e) (handler e) Q R) ->
  triple P (Docker.try_except body handler) Q R.
Proof.
  intros Hb Hh s Hs. specialize (Hb s Hs). unfold Docker.try_except.
  destruct (body s) as [[e|x] s']; [|done]. by apply Hh.
Qed.

Lemma triple_get_self P Q R :
  (forall s, P s -> Q (Docker.self s) s) -> triple P Docker.get_self Q R.
Proof. intros H s Hs. by apply H. Qed.

Lemma triple_run_command P cmd timeout capture
    (Q : _ -> Docker.state -> Prop) (R : Py.exn -> Docker.state -> Prop) :
  (forall s x, P s -> Q x (logged cmd s)) ->
  (forall s e, P s -> R e (logged cmd s)) ->
  triple P (Docker._run_command h cmd timeout capture) Q R.
Proof.
  intros HQ HR s Hs. unfold Docker._run_command. fold (logged cmd s).
  repeat case_match; simplify_eq; auto.
Qed.

Lemma triple_weaken {A} (P P' : Docker.state -> Prop) (m : Docker.M A)
    (Q Q' : A -> Docker.state -> Prop)
    (R R' : Py.exn -> Docker.state -> Prop) :
  triple P' m Q' R' ->
  (forall s, P s -> P' s) -> (forall x s, Q' x s -> Q x s) ->
  (forall e s, R' e s -> R e s) -> triple P m Q R.
Proof.
  intros Hm HP HQ HR s Hs. specialize (Hm s (HP s Hs)).
  destruct (m s) as [[e|x] s']; auto.
Qed.

(** Invariants *)

Lemma maintains_ret {A} I (x : A) : maintains I (mret x).
Proof. by apply triple_ret. Qed.

Lemma maintains_bind {A B} I (m : Docker.M A) (f : A -> Docker.M B) :
  maintains I m -> (forall x, maintains I (f x)) -> maintains I (m ≫= f).
Proof. intros Hm Hf. eapply triple_bind; [exact Hm|exact Hf]. Qed.

Lemma maintains_raise {A} I k msg : maintains I (@Docker.raise A k msg).
Proof. by apply triple_raise. Qed.

Lemma maintains_lift {A} I (m : Py.E A) : maintains I (Docker.lift m).
Proof. apply triple_lift. intros s Hs. by destruct m. Qed.

Lemma maintains_try {A} I (body : Docker.M A) handler :
  maintains I body -> (forall e, maintains I (handler e)) ->
  maintains I (Docker.try_except body handler).
Proof. intros Hb Hh. eapply triple_try; [exact Hb|exact Hh]. Qed.

Lemma maintains_get_self I : maintains I Docker.get_self.
Proof. by apply triple_get_self. Qed.

Lemma maintains_run_command I cmd timeout capture :
  on_self I -> maintains I (Docker._run_command h cmd timeout capture).
Proof. intros HI. apply triple_run_command; intros; by apply HI. Qed.

Lemma maintains_reraise {A} I (e : Py.exn) :
  maintains I (fun s => (@inl Py.exn A e, s)).
Proof. by intros s Hs. Qed.

Lemma maintains_run_in_container I command p w vols env net :
  on_self I ->
  maintains I (Docker.run_in_container h command p w vols env net).
Proof.
  intros HI. unfold Docker.run_in_container.
  apply maintains_bind; [apply maintains_get_self|intros me].
  apply maintains_try; [by apply maintains_run_command|intros e].
  destruct (Py.is_TimeoutError e); [|apply maintains_reraise].
  apply maintains_bind; [by apply maintains_run_command|intros _].
  apply maintains_raise.
Qed.

End Rules.

(** ** What every [analyze] returns *)

Section Analyze.
Import Logic.
Context (h : host).

Lemma triple_any {A} P (m : Docker.M A) :
  triple P m (fun _ _ => True) (fun _ _ => True).
Proof. intros s _. by destruct (m s) as [[?|?] ?]. Qed.

Lemma completed_reported (res : Base.ToolResult) :
  completed res -> reported res.
Proof. unfold completed, reported. intros [?|?]; auto. Qed.

Lemma returns_try {A} (body : Docker.M A) handler (Q Q' : A -> Prop) :
  yields body Q' -> (forall x, Q' x -> Q x) ->
  (forall e, returns (handler e) Q) ->
  returns (Docker.try_except body handler) Q.
Proof.
  intros Hb HQ Hh. eapply triple_try with (R1 := fun _ _ => True).
  - intros s Hs. specialize (Hb s Hs). destruct (body s) as [[e|x] s']; auto.
  - intros e s _. by apply Hh.
Qed.

Ltac ret_status :=
  apply triple_ret; intros; unfold completed, reported; simpl; auto.

Ltac after_run :=
  eapply triple_bind; [apply triple_any|]; intros [[stdout stderr] returncode];
  eapply triple_bind; [apply triple_any|]; intros [fs|];
  repeat case_match; ret_status.

Ltac handlers :=
  intros e; unfold returns; destruct (Py.is_TimeoutError e); ret_status.

Lemma slither_returns p :
  returns (Slither.analyze h p) reported.
Proof.
  unfold Slither.analyze.
  apply returns_try with (Q' := completed);
    [|apply completed_reported|handlers].
  unfold yields. destruct (path_is_file h p); after_run.
Qed.

Lemma mythril_returns p : returns (Mythril.analyze h p) reported.
Proof.
  unfold Mythril.analyze.
  apply returns_try with (Q' := completed);
    [|apply completed_reported|handlers].
  unfold yields. repeat case_match; first [ret_status | after_run].
Qed.

Lemma echidna_returns p : returns (Echidna.analyze h p) reported.
Proof.
  unfold Echidna.analyze.
  apply returns_try with (Q' := completed);
    [|apply completed_reported|handlers].
  unfold yields. repeat case_match; first [ret_status | after_run].
Qed.

End Analyze.

(** ** Running the container *)

Section Container.
Import Logic.
Context (h : host).

Lemma bind_returned {A B} (m : Docker.M A) (f : A -> Docker.M B) s x s' :
  m s = (inr x, s') -> (m ≫= f) s = f x s'.
Proof. intros H. unfold mbind, Docker.M_bind. by rewrite H. Qed.


Lemma docker_cmd_is_run me command p w vols env net :
  is_docker_run (Docker.docker_cmd h me command p w vols env net) = true.
Proof. reflexivity. Qed.

Lemma run_in_container_returns s command p w vols env net d out err rc :
  spawn h (Docker.spawned s)
    (Docker.docker_cmd h (Docker.self s) command p w vols env net)
  = Runs d out err rc ->
  configured_timeout s = 0 \/ d <= configured_timeout s ->
  Docker.run_in_container h command p w vols env net s
  = (inr (out, err, rc),
     logged (Docker.docker_cmd h (Docker.self s) command p w vols env net) s).
Proof.
  intros Hrun Hin. unfold configured_timeout in Hin.
  unfold Docker.run_in_container, Docker.get_self, Docker.try_except,
    Docker._run_command, mbind, Docker.M_bind.
  rewrite Hrun.
  set (t := default 300 _) in *.
  assert (negb (t =? 0) && (t <? d) = false) as ->.
  { destruct Hin as [->|Hle]; [done|].
    apply andb_false_iff. right. by apply Z.ltb_ge. }
  reflexivity.
Qed.


End Container.

(** ** [analyze] after the container has run *)

Section AfterRun.
Import Logic.
Context (h : host).

Lemma bind_lift {A B} (m : Py.E A) (f : A -> Docker.M B) s x :
  m = inr x -> (Docker.lift m ≫= f) s = f x s.
Proof. intros ->. reflexivity. Qed.

(** A run that exits in time with output the parser turns into findings is
    reported as a success carrying these findings, whatever the exit code. *)
Lemma analyze_parsed t p s d out err rc fs :
  Adapter.launches h t p = true ->
  (forall cmd, is_docker_run cmd = true ->
     spawn h (Docker.spawned s) cmd = Runs d out err rc) ->
  configured_timeout s = 0 \/ d <= configured_timeout s ->
  Adapter._parse_wrapper_output h t out err p = inr (Some fs) ->
  exists res s',
    Adapter.analyze h t p s = (inr res, s')
    /\ Base.status res = Base.SUCCESS /\ Base.findings res = fs.
Proof.
  intros Hlaunch Hrun Hin Hparse.
  destruct t; simpl in *.
  - unfold Slither.analyze, Docker.try_except.
    destruct (path_is_file h p);
      (erewrite bind_returned
         by (eapply run_in_container_returns; [by apply Hrun|done]));
      cbv beta iota; (erewrite bind_lift by exact Hparse); eexists _, _; done.
  - unfold Mythril.analyze, Docker.try_except.
    destruct (path_is_dir h p) eqn:Hdir.
    + destruct (path_glob h p "*.sol") as [|first rest] eqn:Hglob; [done|].
      (erewrite bind_returned
         by (eapply run_in_container_returns; [by apply Hrun|done]));
      cbv beta iota; (erewrite bind_lift by exact Hparse); eexists _, _; done.
    + (erewrite bind_returned
         by (eapply run_in_container_returns; [by apply Hrun|done]));
      cbv beta iota; (erewrite bind_lift by exact Hparse); eexists _, _; done.
  - unfold Echidna.analyze, Docker.try_except.
    destruct (path_is_dir h p) eqn:Hdir.
    + simpl in Hlaunch.
      destruct (if path_exists h (path_join h p "echidna") then _ else _)
        as [|first rest] eqn:Hglob; [done|].
      (erewrite bind_returned
         by (eapply run_in_container_returns; [by apply Hrun|done]));
      cbv beta iota; (erewrite bind_lift by exact Hparse); eexists _, _; done.
    + (erewrite bind_returned
         by (eapply run_in_container_returns; [by apply Hrun|done]));
      cbv beta iota; (erewrite bind_lift by exact Hparse); eexists _, _; done.
Qed.

End AfterRun.

(** ** [analyze] when the container outlives its timeout *)

Section TimedOut.
Import Logic.
Context (h : host).



End TimedOut.

(** ** The category-mapping loops *)

Section Mapping.
Import Logic.

Lemma bind_inr {A B} (x : A) (f : A -> Py.E B) : (inr x : Py.E A) ≫= f = f x.
Proof. reflexivity. Qed.

Lemma bind_inl {A B} (e : Py.exn) (f : A -> Py.E B) :
  (inl e : Py.E A) ≫= f = inl e.
Proof. reflexivity. Qed.

Lemma mapM_cons {A B} (f : A -> Py.E B) (x : A) (l : list A) :
  mapM f (x :: l) = (y ← f x; k ← mapM f l; mret (y :: k)).
Proof. reflexivity. Qed.

Lemma mapM_returned {A B} (f : A -> Py.E B) (l : list A) (fs : list B) :
  mapM f l = inr fs -> Forall2 (fun x y => f x = inr y) l fs.
Proof.
  revert fs. induction l as [|x l IH]; intros fs.
  - intros [= <-]. constructor.
  - rewrite mapM_cons.
    destruct (f x) as [e|y] eqn:Hx; [by rewrite bind_inl|]. rewrite bind_inr.
    destruct (mapM f l) as [e|ys]; [by rewrite bind_inl|]. rewrite bind_inr.
    intros [= <-].
    constructor; [done|]. by apply IH.
Qed.



Lemma set_raw_output_type k v f :
  vulnerability_type (set_raw_output k v f) = vulnerability_type f.
Proof. reflexivity. Qed.

Ltac bind_step H :=
  match type of H with
  | (?m ≫= _) = inr _ =>
      let E := fresh "E" in
      destruct m eqn:E; [by rewrite bind_inl in H|rewrite bind_inr in H]
  end.



Lemma issues_loop_returned issues fs :
  Mythril.issues_loop issues = inr fs ->
  Forall2 (fun i f => Mythril.issue_finding i = inr f)
    (List.filter Py.is_dict issues) fs.
Proof.
  revert fs. induction issues as [|i issues IH]; intros fs; simpl.
  - intros [= <-]. constructor.
  - destruct (Py.is_dict i); simpl; [|apply IH].
    destruct (Mythril.issue_finding i) as [e|f] eqn:Hi;
      [by rewrite bind_inl|rewrite bind_inr].
    destruct (Mythril.issues_loop issues) as [e|fs'];
      [by rewrite bind_inl|rewrite bind_inr].
    intros [= <-]. constructor; [done|]. by apply IH.
Qed.



End Mapping.

Section Handled.
Import Logic.

Lemma bind_mret {A B} (x : A) (f : A -> Py.E B) : mret x ≫= f = f x.
Proof. reflexivity. Qed.

Ltac norm := repeat (rewrite ?bind_mret, ?bind_inr; cbv beta).

Lemma table_get_hashable {A} (table : list (string * A)) key dflt :
  Py.hashable key = true -> exists x, Py.table_get table key dflt = inr x.
Proof. destruct key; simpl; intros Hh; try discriminate; by eexists. Qed.

Lemma default_hashable (kvs : list (string * Py.json)) k dflt :
  Py.hashable dflt = true ->
  (forall v, Py.assoc k kvs = Some v -> Py.hashable v = true) ->
  Py.hashable (default dflt (Py.assoc k kvs)) = true.
Proof. intros Hd Hk. destruct (Py.assoc k kvs); simpl; auto. Qed.

(** A Mythril issue that is an object with hashable (string, number, boolean
    or null) SWC id and severity never makes the loop body raise. *)
Lemma mythril_object_handled (kvs : list (string * Py.json)) :
  (forall v, Py.assoc "swc-id" kvs = Some v -> Py.hashable v = true) ->
  (forall v, Py.assoc "swcID" kvs = Some v -> Py.hashable v = true) ->
  (forall v, Py.assoc "severity" kvs = Some v -> Py.hashable v = true) ->
  handled Mythril.issue_finding (Py.JObj kvs).
Proof.
  intros H1 H2 H3. unfold handled, Mythril.issue_finding, Mythril.issue_swc_id.
  simpl Py.get. norm.
  assert (Hswc : Py.hashable
            (if Py.truthy (default Py.JNull (Py.assoc "swc-id" kvs))
             then default Py.JNull (Py.assoc "swc-id" kvs)
             else Py.or_ (default Py.JNull (Py.assoc "swcID" kvs))
                    (Py.JStr "")) = true).
  { destruct (Py.truthy _); [by apply default_hashable|].
    unfold Py.or_. destruct (Py.truthy _); [by apply default_hashable|done]. }
  destruct (Py.truthy (default Py.JNull (Py.assoc "swc-id" kvs)));
    norm;
    (destruct (table_get_hashable Mythril.swc_to_vuln_type _ UNKNOWN Hswc)
       as [vt ->]; norm;
     destruct (Py.truthy (default (Py.JInt 0) (Py.assoc "lineno" kvs)));
     norm;
     unfold Mythril._map_severity;
     destruct (table_get_hashable
                 [("High", HIGH); ("Medium", MEDIUM); ("Low", LOW);
                  ("Informational", INFO)]
                 (default (Py.JStr "Medium") (Py.assoc "severity" kvs)) MEDIUM
                 (default_hashable kvs "severity" (Py.JStr "Medium") eq_refl H3))
       as [sev ->]; norm; by eexists).
Qed.

(** A Slither detector that is an object with hashable check, impact and
    confidence and without elements never makes the loop body raise. *)
Lemma slither_object_handled (kvs : list (string * Py.json)) :
  (forall v, Py.assoc "check" kvs = Some v -> Py.hashable v = true) ->
  (forall v, Py.assoc "impact" kvs = Some v -> Py.hashable v = true) ->
  (forall v, Py.assoc "confidence" kvs = Some v -> Py.hashable v = true) ->
  Py.assoc "elements" kvs = None ->
  handled Slither.detector_finding (Py.JObj kvs).
Proof.
  intros H1 H2 H3 H4.
  unfold handled, Slither.detector_finding, Slither.detector_location.
  simpl Py.get. rewrite H4. simpl. norm.
  destruct (table_get_hashable Slither.detector_mapping
              (default (Py.JStr "unknown") (Py.assoc "check" kvs)) UNKNOWN
              (default_hashable kvs "check" (Py.JStr "unknown") eq_refl H1))
    as [vt ->]; norm.
  unfold Slither._map_severity.
  destruct (table_get_hashable
              [("High", HIGH); ("Medium", MEDIUM); ("Low", LOW);
               ("Informational", INFO); ("Optimization", INFO)]
              (default (Py.JStr "Medium") (Py.assoc "impact" kvs)) MEDIUM
              (default_hashable kvs "impact" (Py.JStr "Medium") eq_refl H2))
    as [sev ->]; norm.
  unfold Slither._confidence_to_score.
  destruct (table_get_hashable
              [("High", 9 # 10); ("Medium", 7 # 10); ("Low", 5 # 10)]
              (default (Py.JStr "Medium") (Py.assoc "confidence" kvs))
              (7 # 10)
              (default_hashable kvs "confidence" (Py.JStr "Medium") eq_refl H3))
    as [conf ->]; norm.
  by eexists.
Qed.

(** The scenario of spec section 8: a reentrancy detector becomes one finding
    of type reentrancy with a cross-reference id attached. *)
Example reentrancy_detector_finding :
  exists f,
    Slither.detector_finding Example.reentrancy_detector = inr f
    /\ vulnerability_type f = REENTRANCY
    /\ severity f = HIGH
    /\ confidence f = 7 # 10
    /\ Aggregator.swc_of f = Some "SWC-107"
    /\ location f
       = Some {| file_path := Py.JStr "Token.sol"; start_line := Py.JInt 10;
                 end_line := Py.JInt 12; code_snippet := Py.JStr "" |}.
Proof. eexists. split; [vm_compute; reflexivity|]. by repeat split. Qed.

End Handled.

(** ** Wrapper state across calls *)

Section WrapperState.
Import Logic.
Context (h : host).

Lemma no_container_on_self : on_self no_container.
Proof. by intros s cmd Hs. Qed.

Ltac maintain HI :=
  repeat lazymatch goal with
  | |- maintains _ (mret _) => apply maintains_ret
  | |- maintains _ (Docker.lift _) => apply maintains_lift
  | |- maintains _ (Docker.raise _ _) => apply maintains_raise
  | |- maintains _ Docker.get_self => apply maintains_get_self
  | |- maintains _ (Docker.run_in_container _ _ _ _ _ _ _) =>
      apply maintains_run_in_container; exact HI
  | |- maintains _ (Docker._run_command _ _ _ _) =>
      apply maintains_run_command; exact HI
  | |- maintains _ (mbind _ _) => apply maintains_bind; [|intros ?]
  | |- maintains _ (Docker.try_except _ _) => apply maintains_try; [|intros ?]
  | |- maintains _ (match ?x with _ => _ end) => destruct x
  end.

Lemma analyze_maintains I t p :
  on_self I -> maintains I (Adapter.analyze h t p).
Proof.
  intros HI. destruct t; simpl.
  - unfold Slither.analyze. maintain HI.
  - unfold Mythril.analyze. maintain HI.
  - unfold Echidna.analyze. maintain HI.
Qed.

Lemma set_initialized_no_container b :
  maintains no_container (Docker.set_initialized b).
Proof. by intros s Hs. Qed.

Lemma initialize_no_container : maintains no_container (Docker.initialize h).
Proof.
  pose proof no_container_on_self as HI. unfold Docker.initialize.
  maintain HI; apply set_initialized_no_container.
Qed.

Lemma cleanup_without_container s :
  no_container s -> Docker.cleanup h s = (inr tt, s).
Proof.
  intros Hs. unfold Docker.cleanup, Docker.get_self, mbind, Docker.M_bind.
  unfold no_container in Hs. by rewrite Hs.
Qed.

Lemma maintained {A} I (m : Docker.M A) s : maintains I m -> I s -> I (m s).2.
Proof.
  intros Hm Hs. specialize (Hm s Hs). by destruct (m s) as [[e|x] s'].
Qed.

Lemma after_no_container c s :
  no_container s -> no_container (Adapter.after h c s).
Proof.
  intros Hs. destruct c; simpl.
  - by apply maintained; [apply initialize_no_container|].
  - by rewrite cleanup_without_container.
  - by apply maintained;
      [apply maintains_run_in_container, no_container_on_self|].
  - by apply maintained; [apply analyze_maintains, no_container_on_self|].
Qed.

Lemma after_all_no_container cs s :
  no_container s -> no_container (Adapter.after_all h cs s).
Proof.
  revert s. induction cs as [|c cs IH]; intros s Hs; simpl; [done|].
  by apply IH, after_no_container.
Qed.

End WrapperState.

(** ** The adapters and the container executor *)

Section AdapterClaims.
Import Logic.

Lemma undecodable_output_parses_empty (h : host) (t : Adapter.tool)
    (out err p : string) :
  json_loads h out = None ->
  Adapter._parse_wrapper_output h t out err p = inr (Some []).
Proof.
  intros Hnone.
  destruct t; simpl;
    unfold Slither._parse_wrapper_output, Mythril._parse_wrapper_output,
      Echidna._parse_wrapper_output, Parse.loads;
    by rewrite Hnone.
Qed.

Lemma example_host_runs (run : process) failed asserted log cmd :
  is_docker_run cmd = true ->
  spawn (Example.host_with run failed asserted) log cmd = run.
Proof. intros Hc. simpl. by rewrite Hc. Qed.


(** C1, at the failing input. The in-container script prints an error line
    that is not JSON and exits with code 1; no success marker is present.
    Every adapter reports the run as a success without findings, where the
    specification demands [status = error]. *)
Theorem unparseable_failure_reported_as_success (t : Adapter.tool) :
  exists res s',
    Adapter.analyze (Example.host_running Example.missing_contract) t
      "Token.sol" (Example.wrapper t) = (inr res, s')
    /\ Base.status res = Base.SUCCESS /\ Base.findings res = [].
Proof.
  eapply analyze_parsed with (d := 1) (rc := 1).
  - by destruct t.
  - intros cmd Hc. by apply example_host_runs.
  - right. by destruct t.
  - by apply undecodable_output_parses_empty.
Qed.





(** C9. Whatever the host, the wrapper state and the path, [analyze] of each
    adapter returns (it never raises), and the returned status is one of
    success, timeout and error, never [FAILED]. *)
Theorem analyze_status_never_failed (h : host) (t : Adapter.tool)
    (p : string) (s : Docker.state) :
  exists res s',
    Adapter.analyze h t p s = (inr res, s')
    /\ (Base.status res = Base.SUCCESS \/ Base.status res = Base.TIMEOUT
        \/ Base.status res = Base.ERROR)
    /\ Base.status res <> Base.FAILED.
Proof.
  assert (Hret : returns (Adapter.analyze h t p) reported).
  { destruct t; [apply slither_returns|apply mythril_returns
                |apply echidna_returns]. }
  specialize (Hret s I).
  destruct (Adapter.analyze h t p s) as [[e|res] s']; [done|].
  exists res, s'. split; [done|]. split; [exact Hret|].
  destruct Hret as [H|[H|H]]; by rewrite H.
Qed.

(** C10. Starting from a freshly constructed wrapper, after any sequence of
    [initialize], [cleanup], [run_in_container] and [analyze] calls the field
    [_container_id] is still [None], and [cleanup] then returns without
    running a command and without changing the wrapper. *)
Theorem container_id_stays_none (h : host) (tool_name docker_image : string)
    (config : option (gmap string Z)) (unique_id : string)
    (calls : list Adapter.call) :
  Docker._container_id
    (Docker.self
       (Adapter.after_all h calls
          (Adapter.fresh tool_name docker_image config unique_id))) = None
  /\ Docker.cleanup h
       (Adapter.after_all h calls
          (Adapter.fresh tool_name docker_image config unique_id))
     = (inr tt,
        Adapter.after_all h calls
          (Adapter.fresh tool_name docker_image config unique_id)).
Proof.
  assert (Hnone : no_container
            (Adapter.after_all h calls
               (Adapter.fresh tool_name docker_image config unique_id))).
  { by apply after_all_no_container. }
  split; [exact Hnone|]. by apply cleanup_without_container.
Qed.

End AdapterClaims.

Section MappingClaim.
Import Logic.




End MappingClaim.

Section ReportWitnesses.
Import Report.
Local Open Scope Q_scope.




End ReportWitnesses.

(** * Further properties of the code *)

(** ** Results and side effects of [analyze] *)

Section AnalyzeShape.
Import Logic Props.
Context (h : host).

Ltac shaped :=
  apply triple_ret; intros; unfold well_formed_result; simpl;
  repeat split; eauto.

Ltac after_container :=
  eapply triple_bind; [apply triple_any|]; intros [[stdout stderr] returncode];
  eapply triple_bind; [apply triple_any|]; intros [fs|];
  repeat case_match; shaped.

Ltac on_exception :=
  intros e; unfold returns; destruct (Py.is_TimeoutError e); shaped.

Lemma analyze_returns_shaped t p :
  returns (Adapter.analyze h t p)
    (fun res => well_formed_result res /\ Base.tool_name res = name_of t).
Proof.
  destruct t; simpl.
  - unfold Slither.analyze.
    apply returns_try
      with (Q' := fun res => well_formed_result res
                             /\ Base.tool_name res = Slither.tool_name);
      [|done|on_exception].
    unfold yields. destruct (path_is_file h p); after_container.
  - unfold Mythril.analyze.
    apply returns_try
      with (Q' := fun res => well_formed_result res
                             /\ Base.tool_name res = Mythril.tool_name);
      [|done|on_exception].
    unfold yields. repeat case_match; first [shaped | after_container].
  - unfold Echidna.analyze.
    apply returns_try
      with (Q' := fun res => well_formed_result res
                             /\ Base.tool_name res = Echidna.tool_name);
      [|done|on_exception].
    unfold yields. repeat case_match; first [shaped | after_container].
Qed.

(** X1. Every result of [analyze] is well formed: a success has no error
    message and keeps the raw output; a timeout or an error has no findings
    and an error message; the result names the adapter. *)
Theorem analyze_result_well_formed (t : Adapter.tool) (p : string)
    (s : Docker.state) :
  exists res s',
    Adapter.analyze h t p s = (inr res, s')
    /\ well_formed_result res /\ Base.tool_name res = name_of t.
Proof.
  pose proof (analyze_returns_shaped t p s I) as Hret.
  destruct (Adapter.analyze h t p s) as [[e|res] s']; [done|].
  exists res, s'. by destruct Hret.
Qed.

(** X2. On a directory without a matching source file the Mythril and
    Echidna adapters return an error result with a message and without
    findings, and execute no command at all. *)
Theorem analyze_without_sources (t : Adapter.tool) (p : string)
    (s : Docker.state) :
  Adapter.launches h t p = false ->
  exists res,
    Adapter.analyze h t p s = (inr res, s)
    /\ Base.status res = Base.ERROR /\ Base.findings res = []
    /\ is_Some (Base.error_message res).
Proof.
  intros Hno. destruct t; simpl in Hno; [discriminate| |].
  - apply orb_false_iff in Hno as [Hdir Hglob].
    apply negb_false_iff in Hdir. apply negb_false_iff in Hglob.
    apply bool_decide_eq_true in Hglob.
    simpl. unfold Mythril.analyze, Docker.try_except.
    rewrite Hdir, Hglob. eexists. by repeat split.
  - apply orb_false_iff in Hno as [Hdir Hglob].
    apply negb_false_iff in Hdir. apply negb_false_iff in Hglob.
    apply bool_decide_eq_true in Hglob.
    simpl. unfold Echidna.analyze, Docker.try_except.
    rewrite Hdir. cbv zeta. rewrite Hglob. eexists. by repeat split.
Qed.

End AnalyzeShape.

Section AnalyzeEffects.
Import Logic Props.
Context (h : host).

Lemma adapter_run_isolated me command p :
  isolated me
    (Docker.docker_cmd h me command p "/contracts" None None false).
Proof.
  exists (path_absolute h p),
    ["--memory";
     Py.str_of_Z (default 4096 (Docker.config me !! "max_memory_mb"))
     +:+ "m";
     "--cpus"; Py.str_of_Z (default 2 (Docker.config me !! "max_cpus"))],
    command.
  split; reflexivity.
Qed.

Lemma run_in_container_outcome s command p :
  triple (fun s0 => s0 = s)
    (Docker.run_in_container h command p "/contracts" None None false)
    (fun _ => launched_at_most_once s) (fun _ => launched_at_most_once s).
Proof.
  intros s0 ->.
  pose proof (adapter_run_isolated (Docker.self s) command p) as Hiso.
  unfold Docker.run_in_container, Docker.get_self, Docker.try_except,
    Docker._run_command, Docker.raise, mbind, Docker.M_bind.
  fold (logged
          (Docker.docker_cmd h (Docker.self s) command p "/contracts" None
             None false) s).
  repeat case_match; simplify_eq; right; eexists; (split; [exact Hiso|]);
    first [by left | by right].
Qed.

Ltac pure_steps :=
  repeat lazymatch goal with
  | |- maintains _ (mret _) => apply maintains_ret
  | |- maintains _ (Docker.lift _) => apply maintains_lift
  | |- maintains _ (mbind _ _) => apply maintains_bind; [|intros ?]
  | |- maintains _ (match ?x with _ => _ end) => destruct x
  end.

Ltac container_then_pure s :=
  eapply triple_bind;
    [apply run_in_container_outcome
    |intros ?;
     lazymatch goal with
     | |- triple _ ?m _ _ => change (maintains (launched_at_most_once s) m)
     end;
     pure_steps].

Lemma analyze_outcome t p s :
  triple (fun s0 => s0 = s) (Adapter.analyze h t p)
    (fun _ => launched_at_most_once s) (fun _ => launched_at_most_once s).
Proof.
  destruct t; simpl.
  - unfold Slither.analyze.
    eapply triple_try with (R1 := fun _ => launched_at_most_once s);
      [|intros e; destruct (Py.is_TimeoutError e); by apply triple_ret].
    destruct (path_is_file h p); container_then_pure s.
  - unfold Mythril.analyze.
    eapply triple_try with (R1 := fun _ => launched_at_most_once s);
      [|intros e; destruct (Py.is_TimeoutError e); by apply triple_ret].
    repeat case_match;
      first [by apply triple_ret; intros ? ->; left
            |container_then_pure s].
  - unfold Echidna.analyze.
    eapply triple_try with (R1 := fun _ => launched_at_most_once s);
      [|intros e; destruct (Py.is_TimeoutError e); by apply triple_ret].
    repeat case_match;
      first [by apply triple_ret; intros ? ->; left
            |container_then_pure s].
Qed.

(** X3. One call of [analyze] leaves the wrapper object as it is and runs
    nothing, or one container, or one container followed by its
    [docker kill]; the container is removed on exit, mounts only the
    contract directory, read-only, and has neither network nor
    capabilities. *)
Theorem analyze_launches_at_most_once (t : Adapter.tool) (p : string)
    (s : Docker.state) :
  launched_at_most_once s (Adapter.analyze h t p s).2.
Proof.
  pose proof (analyze_outcome t p s s eq_refl) as H.
  by destruct (Adapter.analyze h t p s) as [[e|res] s'].
Qed.

End AnalyzeEffects.

(** ** Life cycle of a wrapper: [initialize], [cleanup], failures *)

Section LifeCycle.
Import Logic Props.
Context (h : host).

Lemma initialize_when_initialized s :
  Docker._initialized (Docker.self s) = true ->
  Docker.initialize h s = (inr tt, s).
Proof.
  intros Hi. unfold Docker.initialize, Docker.get_self, mbind, Docker.M_bind.
  by rewrite Hi.
Qed.

Lemma initialize_sets_flag s s' :
  Docker.initialize h s = (inr tt, s') ->
  Docker._initialized (Docker.self s') = true.
Proof.
  unfold Docker.initialize, Docker.get_self, Docker._run_command,
    Docker.set_initialized, Docker.raise, mbind, Docker.M_bind, mret,
    Docker.M_ret.
  intros Hrun. repeat (case_match; simplify_eq); done.
Qed.

(** X4. [initialize] is idempotent: once it has returned, the wrapper is
    marked initialized, and calling it again executes no command and changes
    nothing. *)
Theorem initialize_idempotent (s s' : Docker.state) :
  Docker.initialize h s = (inr tt, s') ->
  Docker._initialized (Docker.self s') = true
  /\ Docker.initialize h s' = (inr tt, s').
Proof.
  intros Hrun. pose proof (initialize_sets_flag s s' Hrun) as Hflag.
  split; [done|]. by apply initialize_when_initialized.
Qed.

(** X5. When the image is absent and [docker pull] exits with a non-zero
    code, [initialize] raises [RuntimeError] after exactly these two
    commands and the wrapper stays uninitialized. The pull runs without
    captured output, so the message ends after the colon: docker's own error
    text is not part of it. *)
Theorem initialize_failed_pull (s : Docker.state) (d d' rc rc' : Z)
    (out err out' err' : string) :
  Docker._initialized (Docker.self s) = false ->
  spawn h (Docker.spawned s) (images_cmd s) = Runs d out err rc ->
  Py.is_blank out = true ->
  spawn h (Docker.spawned s ++ [images_cmd s]) (pull_cmd s)
  = Runs d' out' err' rc' ->
  rc' <> 0 ->
  Docker.initialize h s
  = (inl (Py.Exn Py.RuntimeError
            ("Failed to pull Docker image "
             +:+ Docker.docker_image (Docker.self s) +:+ ": ")),
     logged (pull_cmd s) (logged (images_cmd s) s)).
Proof.
  intros Hi Himages Hblank Hpull Hrc.
  unfold images_cmd, pull_cmd in *.
  unfold Docker.initialize, Docker.get_self, Docker._run_command,
    Docker.raise, mbind, Docker.M_bind.
  apply Z.eqb_neq in Hrc.
  rewrite Hi, Himages. cbn [fst snd Docker.spawned Docker.self].
  rewrite Hblank. cbn [fst snd Docker.spawned Docker.self].
  rewrite Hpull. cbn [fst snd negb]. rewrite Hrc. reflexivity.
Qed.

(** X6. [cleanup] never raises. Afterwards [_container_id] is falsy, the
    commands executed are none, [docker stop], or [docker stop] followed by
    [docker rm] of the recorded id, and a second [cleanup] does nothing. *)
Theorem cleanup_resets_container (s : Docker.state) :
  exists s',
    Docker.cleanup h s = (inr tt, s')
    /\ container_id_falsy s'
    /\ (exists extra,
          Docker.spawned s' = (Docker.spawned s ++ extra)%list
          /\ forall id, Docker._container_id (Docker.self s) = Some id ->
               extra = [] /\ id = ""
               \/ extra = [["docker"; "stop"; id]]
               \/ extra = [["docker"; "stop"; id]; ["docker"; "rm"; id]])
    /\ Docker.cleanup h s' = (inr tt, s').
Proof.
  unfold Docker.cleanup at 1.
  unfold Docker.get_self, Docker.try_except, Docker._run_command,
    Docker.set_container_id, mbind, Docker.M_bind, mret, Docker.M_ret,
    container_id_falsy.
  destruct s as [[name cfg ini image cname [id|]] log]; simpl.
  - destruct (String.eqb_spec id "") as [->|Hne]; simpl.
    + eexists. split; [reflexivity|]. simpl. split; [by right|].
      split; [|reflexivity].
      exists []. rewrite app_nil_r. split; [done|]. intros id [= <-]. by left.
    + repeat case_match; simplify_eq; simpl;
        (eexists; split; [reflexivity|]; simpl; split; [by left|];
         split; [|reflexivity]);
        first
          [ exists [["docker"; "stop"; id]; ["docker"; "rm"; id]];
            split; [by rewrite <- app_assoc|]; intros ? [= <-]; by right; right
          | exists [["docker"; "stop"; id]];
            split; [done|]; intros ? [= <-]; by right; left ].
  - eexists. split; [reflexivity|]. simpl. split; [by left|].
    split; [|reflexivity].
    exists []. rewrite app_nil_r. split; [done|]. intros id [=].
Qed.

(** X7. When the [docker run] process cannot be created and the failure is
    not a timeout, [run_in_container] passes the exception on unchanged and
    does not execute [docker kill]. *)
Theorem run_in_container_spawn_failure (s : Docker.state)
    (command : list string) (p w : string)
    (vols env : option (list (string * string))) (net : bool) (e : Py.exn) :
  spawn h (Docker.spawned s)
    (Docker.docker_cmd h (Docker.self s) command p w vols env net)
  = Spawn_fails e ->
  Py.is_TimeoutError e = false ->
  Docker.run_in_container h command p w vols env net s
  = (inl e,
     logged (Docker.docker_cmd h (Docker.self s) command p w vols env net) s).
Proof.
  intros Hspawn Hkind.
  unfold Docker.run_in_container, Docker.get_self, Docker.try_except,
    Docker._run_command, mbind, Docker.M_bind.
  by rewrite Hspawn, Hkind.
Qed.

End LifeCycle.

Section Names.

Lemma append_inv_head (a b c : string) : a +:+ b = a +:+ c -> b = c.
Proof. induction a as [|x a IH]; simpl; [done|]. intros [= H]. by apply IH. Qed.

Lemma prefix_append (a b : string) : String.prefix a (a +:+ b) = true.
Proof.
  induction a as [|x a IH]; simpl; [by destruct b|].
  destruct (Ascii.ascii_dec x x) as [_|Hn]; [exact IH|by destruct Hn].
Qed.

Lemma string_append_assoc (a b c : string) :
  (a +:+ b) +:+ c = a +:+ b +:+ c.
Proof.
  induction a as [|x a IH]; [done|].
  change (String x ((a +:+ b) +:+ c) = String x (a +:+ b +:+ c)).
  by f_equal.
Qed.

(** X8. Two wrappers of the same tool constructed with different unique ids
    have different container names, and every container name starts with
    [vulnhunter-<tool>-]. *)
Theorem container_names_distinct (tool_name image image' : string)
    (config config' : option (gmap string Z)) (id id' : string) :
  id <> id' ->
  Docker.container_name (Docker.init tool_name image config id)
  <> Docker.container_name (Docker.init tool_name image' config' id')
  /\ String.prefix ("vulnhunter-" +:+ tool_name +:+ "-")
       (Docker.container_name (Docker.init tool_name image config id))
     = true.
Proof.
  intros Hne. split.
  - simpl. intros [= Heq]. apply (append_inv_head tool_name) in Heq.
    by apply (append_inv_head "-") in Heq.
  - assert (Heq : Docker.container_name
                    (Docker.init tool_name image config id)
                  = ("vulnhunter-" +:+ tool_name +:+ "-") +:+ id)
      by (simpl; by rewrite !string_append_assoc).
    rewrite Heq. apply prefix_append.
Qed.

End Names.

(** ** What the parsers return *)

Section ParserFacts.
Import Logic Props ParserProps.
Local Open Scope Q_scope.

Lemma table_get_value {A} (table : list (string * A)) key dflt x :
  Py.table_get table key dflt = inr x -> x = dflt \/ In x (map snd table).
Proof.
  destruct key; simpl; try (intros [= <-]; by left); try done.
  intros [= <-]. induction table as [|[k v] table IH]; simpl; [by left|].
  destruct (String.eqb s k); simpl; [right; by left|].
  destruct IH as [IH|IH]; [by left|right; by right].
Qed.

Ltac bind_step H :=
  match type of H with
  | (?m ≫= _) = inr _ =>
      let E := fresh "E" in
      destruct m eqn:E; [by rewrite bind_inl in H|rewrite bind_inr in H]
  end.

Lemma slither_finding_sound d f :
  Slither.detector_finding d = inr f -> sound_finding Adapter.SLITHER f.
Proof.
  unfold Slither.detector_finding. intros Hf. repeat bind_step Hf.
  injection Hf as <-.
  match goal with
  | Hs : Slither._map_severity _ = inr ?sev,
    Hc : Slither._confidence_to_score _ = inr ?conf |- _ =>
      apply table_get_value in Hs; apply table_get_value in Hc;
      assert (Hsev : sev <> CRITICAL)
        by (simpl in Hs; decompose [or] Hs; subst; done);
      assert (Hconf : 0 <= conf /\ conf <= 1)
        by (simpl in Hc; decompose [or] Hc; subst; done)
  end.
  by destruct (Slither.swc_mapping _).
Qed.

Lemma mythril_finding_sound i f :
  Mythril.issue_finding i = inr f -> sound_finding Adapter.MYTHRIL f.
Proof.
  unfold Mythril.issue_finding. intros Hf. repeat bind_step Hf.
  injection Hf as <-.
  match goal with
  | Hs : Mythril._map_severity _ = inr ?sev |- _ =>
      apply table_get_value in Hs;
      assert (Hsev : sev <> CRITICAL)
        by (simpl in Hs; decompose [or] Hs; subst; done)
  end.
  split; [done|]. split; [split; discriminate|done].
Qed.

Lemma echidna_failed_sound name :
  sound_finding Adapter.ECHIDNA (Echidna.failed_finding name).
Proof. split; [done|]. split; [split; discriminate|done]. Qed.

Lemma echidna_assertion_sound site :
  sound_finding Adapter.ECHIDNA (Echidna.assertion_finding site).
Proof. split; [done|]. split; [split; discriminate|done]. Qed.

Lemma echidna_test_sound h test f :
  Echidna.test_finding h test = inr (Some f) ->
  sound_finding Adapter.ECHIDNA f.
Proof.
  unfold Echidna.test_finding. destruct test as [name result].
  intros Hf. repeat bind_step Hf.
  destruct (negb _); [discriminate|]. bind_step Hf.
  injection Hf as <-.
  split; [done|]. split; [split; discriminate|done].
Qed.

Lemma mapM_Forall {A B} (f : A -> Py.E B) (P : B -> Prop) l fs :
  mapM f l = inr fs -> (forall x y, f x = inr y -> P y) -> Forall P fs.
Proof.
  intros Hm HP. apply mapM_returned in Hm.
  induction Hm as [|x y l fs Hxy _ IH]; constructor; eauto.
Qed.

Lemma issues_loop_Forall (P : Finding -> Prop) issues fs :
  Mythril.issues_loop issues = inr fs ->
  (forall i f, Mythril.issue_finding i = inr f -> P f) -> Forall P fs.
Proof.
  intros Hm HP. apply issues_loop_returned in Hm.
  induction Hm as [|x y l fs' Hxy _ IH]; constructor; eauto.
Qed.

End ParserFacts.

Section ParserSoundness.
Import Logic Props ParserProps.

Ltac bind_step H :=
  match type of H with
  | (?m ≫= _) = inr _ =>
      let E := fresh "E" in
      destruct m eqn:E; [by rewrite bind_inl in H|rewrite bind_inr in H]
  end.

(** Take apart the hypotheses saying that a parser body returned. *)
Ltac crunch :=
  repeat match goal with
  | H : (_ ≫= _) = inr _ |- _ => bind_step H
  | H : mret _ = inr _ |- _ => injection H as H
  | H : inr _ = inr _ |- _ => injection H as H
  | H : Some _ = Some _ |- _ => injection H as H
  | H : inl _ = inr _ |- _ => discriminate H
  | H : None = Some _ |- _ => discriminate H
  | H : (if ?c then _ else _) = _ |- _ => destruct c eqn:?
  | H : (match ?x with _ => _ end) = _ |- _ => destruct x eqn:?
  end.

Lemma slither_parse_output_sound h output p fs :
  Slither._parse_output h output p = Some fs ->
  Forall (sound_finding Adapter.SLITHER) fs.
Proof.
  unfold Slither._parse_output, Parse.none_on_exception. intros H.
  repeat (progress (crunch; subst)); try by constructor.
  eapply mapM_Forall; [eassumption|]. intros; by eapply slither_finding_sound.
Qed.

Lemma mythril_parse_output_sound h output p fs :
  Mythril._parse_output h output p = Some fs ->
  Forall (sound_finding Adapter.MYTHRIL) fs.
Proof.
  unfold Mythril._parse_output, Parse.none_on_exception. intros H.
  repeat (progress (crunch; subst)); try by constructor.
  all: eapply issues_loop_Forall; [eassumption|];
    intros; by eapply mythril_finding_sound.
Qed.

Lemma omap_id_Forall {A} (P : A -> Prop) (l : list (option A)) :
  Forall (fun o => forall x, o = Some x -> P x) l -> Forall P (omap id l).
Proof.
  induction 1 as [|[x|] l Hx _ IH]; simpl; [constructor| |done].
  constructor; [by apply Hx|done].
Qed.

Lemma echidna_parse_output_sound h stdout stderr p fs :
  Echidna._parse_output h stdout stderr p = Some fs ->
  Forall (sound_finding Adapter.ECHIDNA) fs.
Proof.
  assert (Htext : forall text,
            Forall (sound_finding Adapter.ECHIDNA) (Echidna.parse_text h text)).
  { intros text. unfold Echidna.parse_text. apply Forall_app. split.
    - apply Forall_forall. intros f Hf. apply list_elem_of_In in Hf.
      apply in_map_iff in Hf as (x & <- & _). apply echidna_failed_sound.
    - apply Forall_forall. intros f Hf. apply list_elem_of_In in Hf.
      apply in_map_iff in Hf as (x & <- & _). apply echidna_assertion_sound. }
  unfold Echidna._parse_output, Parse.none_on_exception,
    Echidna._parse_json_output. intros H.
  repeat (progress (crunch; subst)); try (by constructor); try apply Htext.
  apply omap_id_Forall. eapply mapM_Forall; [eassumption|].
  intros test o Ho f ->. by eapply echidna_test_sound.
Qed.

Lemma parse_wrapper_output_sound h t out err p fs :
  Adapter._parse_wrapper_output h t out err p = inr (Some fs) ->
  Forall (sound_finding t) fs.
Proof.
  destruct t; simpl;
    unfold Slither._parse_wrapper_output, Mythril._parse_wrapper_output,
      Echidna._parse_wrapper_output, Parse.empty_on_decode_error;
    intros H; repeat (progress (crunch; subst)); try by constructor.
  - by eapply slither_parse_output_sound.
  - by eapply mythril_parse_output_sound.
  - by eapply echidna_parse_output_sound.
Qed.

End ParserSoundness.

Section AnalyzeFindings.
Import Logic Props ParserProps.
Context (h : host).

Lemma lift_parse_sound t (P : Docker.state -> Prop) out err p :
  triple P (Docker.lift (Adapter._parse_wrapper_output h t out err p))
    (fun r _ => parsed_sound t r) (fun _ _ => True).
Proof.
  apply triple_lift. intros s _.
  destruct (Adapter._parse_wrapper_output h t out err p) as [e|[fs|]] eqn:E;
    [done| |done].
  by eapply parse_wrapper_output_sound.
Qed.

Ltac sound_ret :=
  apply triple_ret; intros; simpl; first [done | by constructor].

Ltac after_container t :=
  eapply triple_bind; [apply triple_any|]; intros [[stdout stderr] returncode];
  eapply triple_bind; [lazymatch goal with
     | |- triple _ (Docker.lift (_ _ ?out ?err ?p)) _ _ =>
         apply (lift_parse_sound t _ out err p)
     end|]; intros [fs|];
  repeat case_match; sound_ret.

Ltac on_exception :=
  intros e; unfold returns; destruct (Py.is_TimeoutError e); sound_ret.

Lemma analyze_returns_sound t p :
  returns (Adapter.analyze h t p)
    (fun res => Forall (sound_finding t) (Base.findings res)).
Proof.
  destruct t; simpl.
  - unfold Slither.analyze.
    apply returns_try
      with (Q' := fun res =>
                    Forall (sound_finding Adapter.SLITHER) (Base.findings res));
      [|done|on_exception].
    unfold yields. destruct (path_is_file h p); after_container Adapter.SLITHER.
  - unfold Mythril.analyze.
    apply returns_try
      with (Q' := fun res =>
                    Forall (sound_finding Adapter.MYTHRIL) (Base.findings res));
      [|done|on_exception].
    unfold yields.
    repeat case_match; first [sound_ret | after_container Adapter.MYTHRIL].
  - unfold Echidna.analyze.
    apply returns_try
      with (Q' := fun res =>
                    Forall (sound_finding Adapter.ECHIDNA) (Base.findings res));
      [|done|on_exception].
    unfold yields.
    repeat case_match; first [sound_ret | after_container Adapter.ECHIDNA].
Qed.

(** X9. Every finding in every result of [analyze] names the adapter that
    produced it, has a confidence between 0 and 1, and a severity other than
    critical, whatever the tool printed. *)
Theorem analyze_findings_sound (t : Adapter.tool) (p : string)
    (s : Docker.state) :
  exists res s',
    Adapter.analyze h t p s = (inr res, s')
    /\ Forall (sound_finding t) (Base.findings res).
Proof.
  pose proof (analyze_returns_sound t p s I) as Hret.
  destruct (Adapter.analyze h t p s) as [[e|res] s']; [done|].
  by exists res, s'.
Qed.

End AnalyzeFindings.

(** ** What the parsers keep of the tools' reports *)

Section RawOutput.
Import Logic ParserProps.

Lemma assoc_set_same {A} (k : string) (v : A) (l : list (string * A)) :
  Py.assoc k (Py.assoc_set k v l) = Some v.
Proof.
  induction l as [|[k' v'] l IH]; simpl.
  - by rewrite String.eqb_refl.
  - destruct (String.eqb k k') eqn:E; simpl; by rewrite E.
Qed.

Lemma assoc_set_other {A} (k k' : string) (v : A) (l : list (string * A)) :
  k' <> k -> Py.assoc k' (Py.assoc_set k v l) = Py.assoc k' l.
Proof.
  intros Hne. induction l as [|[k0 v0] l IH]; simpl.
  - apply String.eqb_neq in Hne. by rewrite Hne.
  - destruct (String.eqb k k0) eqn:E; simpl.
    + apply String.eqb_eq in E. subst k0.
      apply String.eqb_neq in Hne. by rewrite Hne.
    + by rewrite IH.
Qed.

Lemma set_raw_output_get (k : string) (v : Py.json) (f : Finding) kvs :
  raw_output f = Py.JObj kvs ->
  Py.get (raw_output (set_raw_output k v f)) k Py.JNull = inr v
  /\ forall k' d, k' <> k ->
       Py.get (raw_output (set_raw_output k v f)) k' d
       = Py.get (raw_output f) k' d.
Proof.
  intros E. unfold set_raw_output. simpl. rewrite E. simpl. split.
  - by rewrite assoc_set_same.
  - intros k' d Hne. by rewrite assoc_set_other.
Qed.

Ltac bind_step H :=
  match type of H with
  | (?m ≫= _) = inr _ =>
      let E := fresh "E" in
      destruct m eqn:E; [by rewrite bind_inl in H|rewrite bind_inr in H]
  end.

(** X10. Every Mythril finding records under [swc_id] in its raw output the
    id read from the issue, the id its vulnerability type was looked up
    with; the other entries of the issue are kept as they were. *)
Theorem mythril_finding_records_swc_id (issue : Py.json) (f : Finding) :
  Mythril.issue_finding issue = inr f ->
  exists swc,
    Mythril.issue_swc_id issue = inr swc
    /\ Py.get (raw_output f) "swc_id" Py.JNull = inr swc
    /\ Py.table_get Mythril.swc_to_vuln_type swc UNKNOWN
       = inr (vulnerability_type f)
    /\ forall k d, k <> "swc_id" ->
         Py.get (raw_output f) k d = Py.get issue k d.
Proof.
  unfold Mythril.issue_finding. intros H.
  destruct (Mythril.issue_swc_id issue) as [e|swc] eqn:Hswc;
    [by rewrite bind_inl in H|rewrite bind_inr in H].
  repeat bind_step H. injection H as <-.
  exists swc. split; [done|].
  destruct issue as [| | | | | |kvs]; try discriminate.
  match goal with
  | |- context [set_raw_output _ _ ?g] =>
      destruct (set_raw_output_get "swc_id" swc g kvs eq_refl) as [Hget Hrest]
  end.
  split; [exact Hget|]. split; [done|]. exact Hrest.
Qed.

(** X11. A Slither finding whose vulnerability type has an SWC id records
    that id under [swc_id] in its raw output; a finding of a type without
    one keeps the detector as it was. The other entries are never
    changed. *)
Theorem slither_finding_records_swc_id (detector : Py.json) (f : Finding) :
  Slither.detector_finding detector = inr f ->
  match Slither.swc_mapping (vulnerability_type f) with
  | Some id => Py.get (raw_output f) "swc_id" Py.JNull = inr (Py.JStr id)
  | None => raw_output f = detector
  end
  /\ forall k d, k <> "swc_id" ->
       Py.get (raw_output f) k d = Py.get detector k d.
Proof.
  unfold Slither.detector_finding. intros H.
  repeat bind_step H. injection H as <-.
  destruct detector as [| | | | | |kvs]; try discriminate.
  match goal with
  | |- context [Slither.swc_mapping ?t] =>
      is_var t; destruct (Slither.swc_mapping t) as [id|] eqn:Hid
  end.
  - match goal with
    | |- context [set_raw_output _ _ ?g] =>
        destruct (set_raw_output_get "swc_id" (Py.JStr id) g kvs eq_refl)
          as [Hget Hrest]
    end.
    simpl vulnerability_type. rewrite Hid. split; [exact Hget|exact Hrest].
  - simpl. rewrite Hid. done.
Qed.

End RawOutput.

Section ParserEdges.
Import Logic ParserProps.
Context (h : host).

Lemma test_finding_of_dict (name : string) (r : list (string * Py.json)) :
  exists o,
    Echidna.test_finding h (name, Py.JObj r) = inr o
    /\ (test_failed (Py.JObj r) = false -> o = None)
    /\ (test_failed (Py.JObj r) = true ->
        exists f, o = Some f
                  /\ title f = Py.JStr ("Property Violation: " +:+ name)).
Proof.
  unfold Echidna.test_finding, test_failed. simpl Py.get.
  destruct (Py.eq_str (default Py.JNull (Py.assoc "status" r)) "failed")
    eqn:Hst;
    destruct (Py.eq_False (default Py.JNull (Py.assoc "passed" r))) eqn:Hp;
    eexists;
    (split;
     [rewrite bind_mret, Hst, ?bind_mret, ?Hp, ?bind_mret; simpl negb;
      cbv iota; rewrite ?bind_mret; reflexivity|]);
    simpl; split; try done; intros _; eexists; split; reflexivity.
Qed.

Lemma tests_loop_of_dicts (tests : list (string * Py.json)) :
  Forall (fun t => Py.is_dict t.2 = true) tests ->
  exists l,
    mapM (Echidna.test_finding h) tests = inr l
    /\ map title (omap id l)
       = map (fun t => Py.JStr ("Property Violation: " +:+ t.1))
           (List.filter (fun t => test_failed t.2) tests).
Proof.
  induction 1 as [|[name r] tests Hr _ (l & Hl & Ht)].
  - by exists [].
  - destruct r as [| | | | | |r]; try discriminate.
    destruct (test_finding_of_dict name r) as (o & Ho & Hpass & Hfail).
    exists (o :: l). rewrite mapM_cons, Ho, bind_inr, Hl, bind_inr.
    split; [done|]. cbn [List.filter snd].
    destruct (test_failed (Py.JObj r)).
    + destruct (Hfail eq_refl) as (f & -> & Hf).
      change (omap id (Some f :: l)) with (f :: omap id l).
      rewrite !map_cons. cbn [fst]. by rewrite Hf, Ht.
    + rewrite (Hpass eq_refl). exact Ht.
Qed.

(** X12. From a JSON report of Echidna whose [tests] entry maps property
    names to objects, the parser returns exactly one finding per test with
    [status == "failed"] or [passed == False], in the order of the report
    and titled with the property name; tests that passed yield nothing. *)
Theorem echidna_json_reports_failed_tests
    (kvs tests : list (string * Py.json)) (p : string) :
  Py.assoc "tests" kvs = Some (Py.JObj tests) ->
  Forall (fun t => Py.is_dict t.2 = true) tests ->
  exists fs,
    Echidna._parse_json_output h (Py.JObj kvs) p = inr fs
    /\ map title fs
       = map (fun t => Py.JStr ("Property Violation: " +:+ t.1))
           (List.filter (fun t => test_failed t.2) tests).
Proof.
  intros Htests Hdicts.
  destruct (tests_loop_of_dicts tests Hdicts) as (l & Hl & Ht).
  exists (omap id l). split; [|exact Ht].
  unfold Echidna._parse_json_output, Echidna.has_tests, Echidna.tests_items.
  rewrite Htests. rewrite bool_decide_eq_true_2 by by eexists.
  by rewrite !bind_mret, Hl, bind_inr.
Qed.

Lemma from_first_skips (c : ascii) (noise rest : string) :
  Py.from_first c noise = None ->
  Py.from_first c (noise +:+ String c rest) = Some (String c rest).
Proof.
  induction noise as [|x noise IH].
  - intros _. simpl. by rewrite Ascii.eqb_refl.
  - change (String x noise +:+ String c rest)
      with (String x (noise +:+ String c rest)).
    simpl. destruct (Ascii.eqb c x); [done|]. exact IH.
Qed.

Lemma not_blank_with (c : ascii) (noise rest : string) :
  Py.is_space c = false -> Py.is_blank (noise +:+ String c rest) = false.
Proof.
  intros Hc. unfold Py.is_blank. induction noise as [|x noise IH].
  - simpl. by rewrite Hc.
  - change (String x noise +:+ String c rest)
      with (String x (noise +:+ String c rest)).
    simpl. rewrite IH. apply andb_false_r.
Qed.

(** X13. The parser of Slither's own output skips whatever precedes the
    first opening brace: text without a brace in front of the JSON report
    does not change the findings. *)
Theorem slither_skips_leading_text (noise rest p : string) :
  Py.from_first "{" noise = None ->
  Slither._parse_output h (Py.JStr (noise +:+ String "{" rest)) p
  = Slither._parse_output h (Py.JStr (String "{" rest)) p.
Proof.
  intros Hnoise. unfold Slither._parse_output. simpl Parse.as_str.
  rewrite !bind_mret.
  rewrite (not_blank_with "{" noise rest eq_refl).
  pose proof (not_blank_with "{" "" rest eq_refl) as Hb.
  pose proof (from_first_skips "{" "" rest eq_refl) as Hf.
  change ("" +:+ String "{" rest) with (String "{" rest) in Hb, Hf.
  by rewrite Hb, Hf, (from_first_skips "{" noise rest Hnoise).
Qed.

Lemma from_first_not_blank (c : ascii) (s js : string) :
  Py.is_space c = false -> Py.from_first c s = Some js ->
  Py.is_blank s = false.
Proof.
  intros Hc. unfold Py.is_blank. induction s as [|x s IH]; simpl; [done|].
  destruct (Ascii.eqb_spec c x) as [<-|Hne].
  - intros _. by rewrite Hc.
  - intros Hs. rewrite (IH Hs). apply andb_false_r.
Qed.

(** X26. [SlitherWrapper._parse_wrapper_output] decodes the wrapper's
    object and hands its [stdout] entry to [_parse_output], which decodes
    that text as a wrapper object once more. A report of Slither itself,
    which has no [status] entry, therefore yields no findings, whatever
    detectors it lists. *)
Theorem slither_report_wrapped_once_yields_nothing (out err p so js : string)
    (w report : list (string * Py.json)) :
  json_loads h out = Some (Py.JObj w) ->
  Py.assoc "stdout" w = Some (Py.JStr so) ->
  Py.from_first "{" so = Some js ->
  json_loads h js = Some (Py.JObj report) ->
  Py.assoc "status" report = None ->
  Slither._parse_wrapper_output h out err p = inr (Some []).
Proof.
  intros Hout Hso Hjs Hreport Hstatus.
  unfold Slither._parse_wrapper_output, Parse.loads. rewrite Hout.
  rewrite bind_mret. simpl Py.get. rewrite bind_mret.
  destruct (negb (Py.eq_str (default Py.JNull (Py.assoc "status" w))
                    "success")); [done|].
  rewrite bind_mret, Hso. simpl default.
  unfold Slither._parse_output, Parse.loads. simpl Parse.as_str.
  rewrite bind_mret, (from_first_not_blank "{" so js eq_refl Hjs), Hjs.
  rewrite Hreport, bind_mret. simpl Py.get. by rewrite Hstatus.
Qed.

End ParserEdges.

(** ** The adapters on the output of their wrapper scripts *)

Section Scripts.
Import Logic ScriptProps.


Lemma printed_first (ch : ascii) (l : string) (ls : list string) :
  exists rest, Script.printed (String ch l :: ls) = String ch rest.
Proof.
  unfold Script.printed. rewrite map_cons.
  change (String ch l +:+ String "010" EmptyString)
    with (String ch (l +:+ String "010" EmptyString)).
  destruct (map _ ls) as [|x xs]; by eexists.
Qed.

Lemma run_slither_prints c p f : starts_analyzing (Script.run_slither c p f).
Proof.
  unfold starts_analyzing, Script.run_slither.
  repeat case_match; by eexists _, _.
Qed.

Lemma run_mythril_prints c p f : starts_analyzing (Script.run_mythril c p f).
Proof.
  unfold starts_analyzing, Script.run_mythril.
  repeat case_match; by eexists _, _.
Qed.

Lemma run_echidna_prints c p f : starts_analyzing (Script.run_echidna c p f).
Proof.
  unfold starts_analyzing, Script.run_echidna.
  repeat case_match; simplify_eq; by eexists _, _.
Qed.

Lemma main_prints c name run argv :
  (forall p f, starts_analyzing (run p f)) ->
  exists ch rest,
    Script.printed (Script.main c name run argv).1 = String ch rest
    /\ (ch = "A" \/ ch = "E" \/ ch = "U")%char.
Proof.
  intros Hrun. unfold Script.main.
  destruct argv as [|a0 [|p rest]].
  - destruct (printed_first "U" ("sage: " +:+ name
                                 +:+ " <contract_path> [output_format]") [])
      as [r Hr].
    exists "U"%char, r. split; [exact Hr|auto].
  - destruct (printed_first "U" ("sage: " +:+ name
                                 +:+ " <contract_path> [output_format]") [])
      as [r Hr].
    exists "U"%char, r. split; [exact Hr|auto].
  - destruct (negb (Script.os_path_exists c p)).
    + destruct (printed_first "E" ("rror: Contract path " +:+ p
                                   +:+ " does not exist") []) as [r Hr].
      exists "E"%char, r. split; [exact Hr|auto].
    + destruct (Hrun p match rest with fmt :: _ => fmt | [] => "json" end)
        as (l & ls & Hl).
      destruct (run p _) as [lines result]. simpl in Hl. subst lines.
      cbn [fst]. rewrite <- app_comm_cons.
      destruct (printed_first "A" l
                  (ls ++ Script.output_lines c
                           match rest with fmt :: _ => fmt | [] => "json" end
                           result)) as [r Hr].
      exists "A"%char, r. split; [exact Hr|auto].
Qed.

Lemma script_stdout_is_prose c t argv :
  exists ch rest,
    script_stdout c t argv = String ch rest
    /\ (ch = "A" \/ ch = "E" \/ ch = "U")%char.
Proof.
  unfold script_stdout. destruct t; simpl; apply main_prints.
  - apply run_slither_prints.
  - apply run_mythril_prints.
  - apply run_echidna_prints.
Qed.

Lemma script_stdout_undecodable h c t argv :
  rejects_prose h -> json_loads h (script_stdout c t argv) = None.
Proof.
  intros Hrej.
  destruct (script_stdout_is_prose c t argv) as (ch & rest & -> & Hch).
  apply Hrej; decompose [or] Hch; subst; done.
Qed.

(** X14. The wrapper scripts print progress lines before the JSON object
    they report. The adapters decode the container's whole standard output,
    so with these scripts in the container [analyze] returns a success
    without findings, whatever the tool reported. *)
Theorem wrapper_script_output_yields_no_findings (h : host)
    (c : Script.container) (t : Adapter.tool) (argv : list string)
    (p : string) (s : Docker.state) (d rc : Z) (err : string) :
  rejects_prose h ->
  Adapter.launches h t p = true ->
  (forall cmd, is_docker_run cmd = true ->
     spawn h (Docker.spawned s) cmd
     = Runs d (script_stdout c t argv) err rc) ->
  configured_timeout s = 0 \/ d <= configured_timeout s ->
  exists res s',
    Adapter.analyze h t p s = (inr res, s')
    /\ Base.status res = Base.SUCCESS /\ Base.findings res = [].
Proof.
  intros Hrej Hlaunch Hrun Hin.
  eapply analyze_parsed; [exact Hlaunch|exact Hrun|exact Hin|].
  apply undecodable_output_parses_empty.
  by apply script_stdout_undecodable.
Qed.

Lemma json_codec_rejects_prose run failed asserted :
  rejects_prose (Example.host_with run failed asserted).
Proof.
  intros ch rest Hcap HN HI. simpl json_loads. unfold Json.loads.
  rewrite Nat.add_comm. cbn [Nat.add Json.value Json.skip_ws].
  unfold is_capital in Hcap.
  destruct ch as [[] [] [] [] [] [] [] []]; try discriminate Hcap;
    try done.
Qed.

End Scripts.

(** ** Reports: views by severity, SWC coverage, and the risk score *)

Section ReportViews.
Import Report Coverage.

Lemma by_severity_partition (l : list Vulnerability) :
  Permutation l
    (concat (map (fun s =>
                    List.filter (fun v => bool_decide (v_severity v = s)) l)
               all_severities)).
Proof.
  induction l as [|v l IH]; [done|].
  unfold all_severities in *. cbn [map concat] in *.
  cbn [List.filter].
  set (A := List.filter (fun v => bool_decide (v_severity v = CRITICAL)) l)
    in *.
  set (B := List.filter (fun v => bool_decide (v_severity v = HIGH)) l) in *.
  set (C := List.filter (fun v => bool_decide (v_severity v = MEDIUM)) l)
    in *.
  set (D := List.filter (fun v => bool_decide (v_severity v = LOW)) l) in *.
  set (E := List.filter (fun v => bool_decide (v_severity v = INFO)) l) in *.
  rewrite IH at 1.
  destruct (v_severity v); simpl; rewrite <- ?Permutation_middle; done.
Qed.

(** X15. The lists [get_vulnerabilities_by_severity] returns for the five
    severities partition the vulnerabilities of the report, and
    [has_critical_findings] holds exactly when the list for [CRITICAL] is
    not empty. *)
Theorem vulnerabilities_partitioned_by_severity (r : AnalysisReport) :
  Permutation (vulnerabilities r)
    (concat (map (get_vulnerabilities_by_severity r) all_severities))
  /\ (has_critical_findings r = true
      <-> get_vulnerabilities_by_severity r CRITICAL <> []).
Proof.
  split; [apply by_severity_partition|].
  unfold has_critical_findings, get_vulnerabilities_by_severity.
  induction (vulnerabilities r) as [|v l IH]; simpl; [done|].
  destruct (bool_decide (v_severity v = CRITICAL)); simpl; [done|exact IH].
Qed.

Lemma covers_cons (v : Vulnerability) (vs : list Vulnerability) (k : string) :
  covers (v :: vs) k <-> (k <> "" /\ v_swc_id v = Some k) \/ covers vs k.
Proof.
  unfold covers. split.
  - intros (Hk & w & Hw & Hid). apply elem_of_cons in Hw as [->|Hw].
    + by left.
    + right. split; [done|]. by exists w.
  - intros [[Hk Hid]|(Hk & w & Hw & Hid)].
    + split; [done|]. exists v. split; [by left|done].
    + split; [done|]. exists w. split; [by right|done].
Qed.

Lemma assoc_set_lookup {A} (k k' : string) (v : A) (l : list (string * A)) :
  Py.assoc k' (Py.assoc_set k v l)
  = if String.eqb k' k then Some v else Py.assoc k' l.
Proof.
  destruct (String.eqb k' k) eqn:E.
  - apply String.eqb_eq in E. subst. apply assoc_set_same.
  - apply String.eqb_neq in E. by apply assoc_set_other.
Qed.

Lemma coverage_fold (vs : list Vulnerability) (acc : list (string * bool))
    (k : string) :
  let covered :=
    fold_left
      (fun covered vuln =>
         match v_swc_id vuln with
         | Some id =>
             if negb (String.eqb id "") then Py.assoc_set id true covered
             else covered
         | None => covered
         end) vs acc in
  (Py.assoc k covered = Some true
   <-> Py.assoc k acc = Some true \/ covers vs k)
  /\ (Py.assoc k acc <> Some false -> Py.assoc k covered <> Some false).
Proof.
  revert acc. induction vs as [|v vs IH]; intros acc; simpl.
  - split; [|done]. split; [by left|]. intros [H|(_ & w & Hw & _)]; [done|].
    by apply elem_of_nil in Hw.
  - destruct (IH match v_swc_id v with
                 | Some id =>
                     if negb (String.eqb id "")
                     then Py.assoc_set id true acc else acc
                 | None => acc
                 end) as [IH1 IH2].
    rewrite covers_cons. split.
    + rewrite IH1. destruct (v_swc_id v) as [id|] eqn:Hid.
      * destruct (String.eqb id "") eqn:Hempty; simpl.
        -- apply String.eqb_eq in Hempty. subst id.
           split; [tauto|]. intros [H|[[Hk [= <-]]|H]]; tauto.
        -- apply String.eqb_neq in Hempty. rewrite assoc_set_lookup.
           destruct (String.eqb k id) eqn:Hk.
           ++ apply String.eqb_eq in Hk. subst k. split; [|tauto].
              intros _. right. left. by split.
           ++ apply String.eqb_neq in Hk. split; [tauto|].
              intros [H|[[_ [= <-]]|H]]; tauto.
      * split; [tauto|]. intros [H|[[_ [=]]|H]]; tauto.
    + intros Hacc. apply IH2. destruct (v_swc_id v) as [id|]; [|done].
      destruct (negb (String.eqb id "")); [|done].
      rewrite assoc_set_lookup. by destruct (String.eqb k id).
Qed.

(** X16. [get_swc_coverage] maps an id to [True] exactly when some
    vulnerability of the report carries that id and the id is not the empty
    string; no id is ever mapped to [False]. *)
Theorem swc_coverage_spec (r : AnalysisReport) (k : string) :
  (Py.assoc k (get_swc_coverage r) = Some true
   <-> covers (vulnerabilities r) k)
  /\ Py.assoc k (get_swc_coverage r) <> Some false.
Proof.
  destruct (coverage_fold (vulnerabilities r) [] k) as [H1 H2].
  unfold get_swc_coverage. split.
  - rewrite H1. simpl. split; [by intros [?|?]|by right].
  - by apply H2.
Qed.

End ReportViews.

Section RiskScoreMore.
Import Report.
Local Open Scope Q_scope.










End RiskScoreMore.

(** ** Sessions, severities and addresses *)

Section Sessions.
Import Logic.
Context (h : host).

(** X20. In a session [async with wrapper: analyze(path)] on a wrapper
    without recorded container, the exit method executes nothing: the
    session is [initialize] followed by [analyze], with the same outcome,
    the same final wrapper state and the same commands executed. *)
Theorem session_is_initialize_then_analyze (t : Adapter.tool) (p : string)
    (s : Docker.state) :
  no_container s ->
  Session.async_with h (Adapter.analyze h t p) s
  = (Docker.initialize h ≫= fun _ => Adapter.analyze h t p) s.
Proof.
  intros Hs. unfold Session.async_with, Session.__aenter__, Session.__aexit__.
  unfold mbind, Docker.M_bind.
  pose proof (maintained no_container (Docker.initialize h) s
                (initialize_no_container h) Hs) as Hinit.
  destruct (Docker.initialize h s) as [[e|[]] s1]; [done|]. simpl in Hinit.
  pose proof (maintained no_container (Adapter.analyze h t p) s1
                (analyze_maintains h no_container t p
                   (no_container_on_self)) Hinit) as Hrun.
  destruct (Adapter.analyze h t p s1) as [outcome s2]. simpl in Hrun.
  by rewrite (cleanup_without_container h s2 Hrun).
Qed.

End Sessions.

Section Severities.

(** X21. [parse_severity] decodes the value of every member of
    [SeverityLevel] to that member, in any letter case. *)
Theorem parse_severity_round_trip (s : SeverityLevel) (w : string) :
  Py.lower w = Settings.SeverityLevel_value s -> Base.parse_severity w = s.
Proof. intros Hw. unfold Base.parse_severity. rewrite Hw. by destruct s. Qed.

End Severities.

Section Addresses.

Lemma lower_ascii_idemp (c : ascii) :
  Py.lower_ascii (Py.lower_ascii c) = Py.lower_ascii c.
Proof. destruct c as [[] [] [] [] [] [] [] []]; reflexivity. Qed.

Lemma lower_idemp (s : string) : Py.lower (Py.lower s) = Py.lower s.
Proof.
  induction s as [|c s IH]; [done|]. simpl. by rewrite lower_ascii_idemp, IH.
Qed.

Lemma lower_length (s : string) :
  String.length (Py.lower s) = String.length s.
Proof. induction s as [|c s IH]; [done|]. simpl. by rewrite IH. Qed.

Lemma lower_keeps_0x (s : string) :
  String.prefix "0x" s = true -> String.prefix "0x" (Py.lower s) = true.
Proof.
  destruct s as [|a [|b s]]; cbn [String.prefix]; try done.
  - by destruct (Ascii.ascii_dec "0" a).
  - destruct (Ascii.ascii_dec "0" a) as [<-|]; [|done].
    destruct (Ascii.ascii_dec "x" b) as [<-|]; [|done].
    intros _. cbn [Py.lower].
    change (Py.lower_ascii "0") with "0"%char.
    change (Py.lower_ascii "x") with "x"%char.
    apply (prefix_append "0x" (Py.lower s)).
Qed.

(** X22. An address [validate_address] accepts comes back in a canonical
    form: 42 characters, starting with [0x], without capital letters, and
    accepted unchanged when validated again. *)
Theorem validate_address_canonical (a a' : string) :
  Contract.validate_address (Some a) = inr (Some a') ->
  String.length a' = 42%nat
  /\ String.prefix "0x" a' = true
  /\ Py.lower a' = a'
  /\ Contract.validate_address (Some a') = inr (Some a').
Proof.
  unfold Contract.validate_address.
  destruct (String.prefix "0x" a) eqn:Hp; [|done].
  destruct (String.length a =? 42)%nat eqn:Hl; [|done].
  simpl. intros [= <-]. apply Nat.eqb_eq in Hl.
  rewrite lower_length, lower_idemp, (lower_keeps_0x a Hp), Hl.
  by repeat split.
Qed.

End Addresses.

(** ** Choosing the compiler version *)

Section SolcVersion.
Context (is_exact_version : string -> bool).

Lemma ltb_true_le (a b : string) : String.ltb a b = true -> String.le a b.
Proof.
  unfold String.ltb, String.le, String.leb.
  by destruct (String.compare a b).
Qed.

Lemma ltb_false_le (a b : string) : String.ltb a b = false -> String.le b a.
Proof.
  unfold String.ltb, String.le, String.leb.
  rewrite (String.compare_antisym b a).
  by destruct (String.compare a b).
Qed.

Lemma max_fold_spec (l : list string) (x : string) :
  let m := fold_left (fun m v => if String.ltb m v then v else m) l x in
  m ∈ x :: l /\ String.le x m /\ Forall (fun w => String.le w m) l.
Proof.
  revert x. induction l as [|v l IH]; intros x; simpl.
  - split; [by left|]. split; [done|constructor].
  - destruct (String.ltb x v) eqn:E.
    + destruct (IH v) as (Hin & Hle & Hall).
      split; [by right|]. split.
      * etrans; [by apply ltb_true_le|exact Hle].
      * by constructor.
    + destruct (IH x) as (Hin & Hle & Hall).
      split; [|split; [done|]].
      * apply elem_of_cons in Hin as [->|Hin]; [by left|by right; right].
      * constructor; [|done]. etrans; [by apply ltb_false_le|exact Hle].
Qed.

Lemma str_max_spec (l : list string) (v : string) :
  Solc.str_max l = Some v -> v ∈ l /\ Forall (fun w => String.le w v) l.
Proof.
  destruct l as [|x l]; [done|]. simpl. intros [= <-].
  destruct (max_fold_spec l x) as (Hin & Hle & Hall).
  split; [done|]. by constructor.
Qed.

Lemma str_max_none (l : list string) : Solc.str_max l = None -> l = [].
Proof. by destruct l. Qed.

Lemma filter_elem_of {A} (f : A -> bool) (l : list A) (x : A) :
  x ∈ List.filter f l -> x ∈ l.
Proof.
  rewrite !list_elem_of_In. intros H. by apply List.filter_In in H as [? _].
Qed.

Lemma last_available_in (available : list string) (v : string) :
  Solc.last_available available = inr v -> v ∈ available.
Proof.
  unfold Solc.last_available.
  destruct (last available) as [w|] eqn:E; [|done]. intros [= <-].
  apply last_Some in E as [l' ->]. apply elem_of_app. right. by left.
Qed.

Lemma first_starting_in (p : string) (available : list string) (v : string) :
  Solc.first_starting p available = inr v -> v ∈ available.
Proof.
  unfold Solc.first_starting.
  destruct (Solc.last_available available) as [e|fb] eqn:E; [done|].
  intros [= <-].
  destruct (List.filter (String.prefix p) available) as [|x xs] eqn:F; simpl.
  - by apply last_available_in.
  - apply (filter_elem_of (String.prefix p)). rewrite F. by left.
Qed.

Lemma fallback_in (available : list string) (v : string) :
  match last available with Some w => inr w | None => inr "0.8.19" end
  = (inr v : Solc.error + string) ->
  v ∈ available \/ available = [] /\ v = "0.8.19".
Proof.
  destruct (last available) as [w|] eqn:E; intros [= <-].
  - left. apply last_Some in E as [l' ->]. apply elem_of_app. right. by left.
  - right. apply last_None in E. done.
Qed.

(** X23. Whenever [select_best_version] returns, the version is one of the
    installed ones; only when none is installed can it be the default
    [0.8.19]. *)
Theorem select_best_version_installed (version_spec : string)
    (available : list string) (v : string) :
  Solc.select_best_version is_exact_version version_spec available = inr v ->
  v ∈ available \/ available = [] /\ v = "0.8.19".
Proof.
  unfold Solc.select_best_version.
  destruct (String.prefix "^" _).
  - destruct (take 2 _) as [|major [|minor [|? ?]]]; try done.
    destruct (Solc.str_max _) as [w|] eqn:E.
    + intros [= <-]. left. apply str_max_spec in E as [Hin _].
      by apply filter_elem_of in Hin.
    + intros H. left. by apply last_available_in.
  - destruct (String.prefix ">=" _ && Py.contains "<" _).
    + destruct (Py.contains "0.6" _).
      * intros H. left. by eapply first_starting_in.
      * destruct (Py.contains "0.7" _).
        -- intros H. left. by eapply first_starting_in.
        -- apply fallback_in.
    + destruct (is_exact_version _).
      * case_bool_decide as Hin.
        -- intros [= <-]. by left.
        -- intros H. left. by apply last_available_in.
      * apply fallback_in.
Qed.

(** X24. With no version installed, a caret requirement never yields the
    default: [select_best_version] raises, [ValueError] when the version
    after the caret has no dot and [IndexError] otherwise. *)
Theorem select_best_version_caret_none_installed (version_spec : string) :
  String.prefix "^" (Script.strip version_spec) = true ->
  Solc.select_best_version is_exact_version version_spec []
  = inl (match Solc.split "." (Py.drop_str 1 (Script.strip version_spec)) with
         | _ :: _ :: _ => Solc.IndexError
         | _ => Solc.ValueError
         end).
Proof.
  intros Hc. unfold Solc.select_best_version. rewrite Hc.
  by destruct (Solc.split "." _) as [|major [|minor rest]].
Qed.

(** X25. For a caret requirement [^major.minor...] and at least one
    installed version with that major and minor number,
    [select_best_version] returns such a version, the greatest of them as
    strings compare. *)
Theorem select_best_version_caret (version_spec major minor : string)
    (rest available : list string) :
  String.prefix "^" (Script.strip version_spec) = true ->
  Solc.split "." (Py.drop_str 1 (Script.strip version_spec))
  = major :: minor :: rest ->
  Solc.compatible major minor available <> [] ->
  exists v,
    Solc.select_best_version is_exact_version version_spec available = inr v
    /\ v ∈ Solc.compatible major minor available
    /\ Forall (fun w => String.le w v) (Solc.compatible major minor available).
Proof.
  intros Hc Hsplit Hsome. unfold Solc.select_best_version.
  rewrite Hc, Hsplit. cbn [take].
  destruct (Solc.str_max _) as [v|] eqn:E.
  - exists v. split; [done|]. by apply str_max_spec.
  - by apply str_max_none in E.
Qed.

End SolcVersion.

(** ** The further properties on concrete runs *)

Section FurtherWitnesses.
Import Logic Props.

Lemma analyze_without_sources_witness :
  exists res,
    Adapter.analyze Fixtures.empty_directory Adapter.MYTHRIL "contracts"
      (Example.wrapper Adapter.MYTHRIL)
    = (inr res, Example.wrapper Adapter.MYTHRIL)
    /\ Base.status res = Base.ERROR /\ Base.findings res = []
    /\ is_Some (Base.error_message res).
Proof.
  apply (analyze_without_sources Fixtures.empty_directory Adapter.MYTHRIL
           "contracts" (Example.wrapper Adapter.MYTHRIL)).
  reflexivity.
Defined.

Lemma initialize_idempotent_witness :
  Docker._initialized
    (Docker.self
       (Docker.initialize (Example.host_running Example.mythril_run)
          (Example.wrapper Adapter.MYTHRIL)).2)
  = true
  /\ Docker.initialize (Example.host_running Example.mythril_run)
       (Docker.initialize (Example.host_running Example.mythril_run)
          (Example.wrapper Adapter.MYTHRIL)).2
     = (inr tt,
        (Docker.initialize (Example.host_running Example.mythril_run)
           (Example.wrapper Adapter.MYTHRIL)).2).
Proof.
  apply (initialize_idempotent (Example.host_running Example.mythril_run)
           (Example.wrapper Adapter.MYTHRIL)).
  reflexivity.
Defined.

Lemma initialize_failed_pull_witness :
  Docker.initialize Fixtures.registry_down (Example.wrapper Adapter.ECHIDNA)
  = (inl (Py.Exn Py.RuntimeError
            "Failed to pull Docker image vulnhunter-echidna:latest: "),
     logged (pull_cmd (Example.wrapper Adapter.ECHIDNA))
       (logged (images_cmd (Example.wrapper Adapter.ECHIDNA))
          (Example.wrapper Adapter.ECHIDNA))).
Proof.
  apply (initialize_failed_pull Fixtures.registry_down
           (Example.wrapper Adapter.ECHIDNA) 0 3 0 1 "" "" ""
           "pull access denied").
  - reflexivity.
  - reflexivity.
  - reflexivity.
  - reflexivity.
  - lia.
Defined.

Lemma run_in_container_spawn_failure_witness :
  Docker.run_in_container Fixtures.no_docker
    ["python"; "/usr/local/bin/slither-wrapper.py"; "Token.sol"] "."
    "/contracts" None None false (Example.wrapper Adapter.SLITHER)
  = (inl (Py.Exn Py.OSError "[Errno 2] No such file or directory: 'docker'"),
     logged
       (Docker.docker_cmd Fixtures.no_docker
          (Docker.self (Example.wrapper Adapter.SLITHER))
          ["python"; "/usr/local/bin/slither-wrapper.py"; "Token.sol"] "."
          "/contracts" None None false)
       (Example.wrapper Adapter.SLITHER)).
Proof.
  apply (run_in_container_spawn_failure Fixtures.no_docker
           (Example.wrapper Adapter.SLITHER)
           ["python"; "/usr/local/bin/slither-wrapper.py"; "Token.sol"] "."
           "/contracts" None None false
           (Py.Exn Py.OSError "[Errno 2] No such file or directory: 'docker'")).
  - reflexivity.
  - reflexivity.
Defined.

Lemma container_names_distinct_witness :
  Docker.container_name
    (Docker.init "slither" Slither.docker_image None "1700000000000000-4242")
  <> Docker.container_name
       (Docker.init "slither" Slither.docker_image None
          "1700000000000000-4243")
  /\ String.prefix ("vulnhunter-" +:+ "slither" +:+ "-")
       (Docker.container_name
          (Docker.init "slither" Slither.docker_image None
             "1700000000000000-4242"))
     = true.
Proof.
  apply (container_names_distinct "slither" Slither.docker_image
           Slither.docker_image None None "1700000000000000-4242"
           "1700000000000000-4243").
  discriminate.
Defined.

Lemma mythril_finding_records_swc_id_witness :
  exists swc,
    Mythril.issue_swc_id Example.mythril_issue = inr swc
    /\ Py.get (raw_output Example.mythril_finding) "swc_id" Py.JNull = inr swc
    /\ Py.table_get Mythril.swc_to_vuln_type swc UNKNOWN
       = inr (vulnerability_type Example.mythril_finding)
    /\ forall k d, k <> "swc_id" ->
         Py.get (raw_output Example.mythril_finding) k d
         = Py.get Example.mythril_issue k d.
Proof.
  apply (mythril_finding_records_swc_id Example.mythril_issue
           Example.mythril_finding).
  reflexivity.
Defined.

Lemma slither_finding_records_swc_id_witness :
  match Slither.swc_mapping (vulnerability_type Fixtures.reentrancy_finding)
  with
  | Some id =>
      Py.get (raw_output Fixtures.reentrancy_finding) "swc_id" Py.JNull
      = inr (Py.JStr id)
  | None => raw_output Fixtures.reentrancy_finding = Example.reentrancy_detector
  end
  /\ forall k d, k <> "swc_id" ->
       Py.get (raw_output Fixtures.reentrancy_finding) k d
       = Py.get Example.reentrancy_detector k d.
Proof.
  apply (slither_finding_records_swc_id Example.reentrancy_detector
           Fixtures.reentrancy_finding).
  reflexivity.
Defined.

Lemma echidna_json_reports_failed_tests_witness :
  exists fs,
    Echidna._parse_json_output Fixtures.empty_directory
      (Py.JObj [("success", Py.JBool true);
                ("tests", Py.JObj Fixtures.echidna_tests)]) "Token.sol"
    = inr fs
    /\ map title fs
       = map (fun t => Py.JStr ("Property Violation: " +:+ t.1))
           (List.filter (fun t => ParserProps.test_failed t.2)
              Fixtures.echidna_tests).
Proof.
  apply (echidna_json_reports_failed_tests Fixtures.empty_directory
           [("success", Py.JBool true);
            ("tests", Py.JObj Fixtures.echidna_tests)]
           Fixtures.echidna_tests "Token.sol").
  - reflexivity.
  - repeat constructor.
Defined.

Lemma slither_skips_leading_text_witness :
  Slither._parse_output Fixtures.empty_directory
    (Py.JStr ("Compilation warnings" +:+ String "{" "}")) "Token.sol"
  = Slither._parse_output Fixtures.empty_directory
      (Py.JStr (String "{" "}")) "Token.sol".
Proof.
  apply (slither_skips_leading_text Fixtures.empty_directory
           "Compilation warnings" "}" "Token.sol").
  reflexivity.
Defined.

Lemma slither_report_wrapped_once_yields_nothing_witness :
  Slither._parse_wrapper_output Fixtures.empty_directory
    (Example.wrapper_json "success" 1 ScriptProps.slither_report "") ""
    "Token.sol"
  = inr (Some []).
Proof.
  apply (slither_report_wrapped_once_yields_nothing Fixtures.empty_directory
           (Example.wrapper_json "success" 1 ScriptProps.slither_report "")
           "" "Token.sol" ScriptProps.slither_report
           ScriptProps.slither_report
           [("status", Py.JStr "success");
            ("returncode", Py.JInt 1);
            ("stdout", Py.JStr ScriptProps.slither_report);
            ("stderr", Py.JStr "");
            ("solc_version", Py.JStr "0.8.19")]
           [("success", Py.JBool true);
            ("results",
             Py.JObj [("detectors",
                       Py.JArr [Example.reentrancy_detector])])]).
  - by vm_compute.
  - reflexivity.
  - reflexivity.
  - by vm_compute.
  - reflexivity.
Defined.

(** The same report wrapped twice is what the parser reads findings
    from. *)
Lemma slither_report_wrapped_twice_parses :
  Slither._parse_wrapper_output Fixtures.empty_directory
    (Example.wrapper_json "success" 1
       (Example.wrapper_json "success" 1 ScriptProps.slither_report "") "")
    "" "Token.sol"
  = inr (Some [Fixtures.reentrancy_finding]).
Proof. by vm_compute. Qed.

Lemma wrapper_script_output_yields_no_findings_witness :
  exists res s',
    Adapter.analyze
      (Example.host_running
         (Runs 5
            (ScriptProps.script_stdout
               (ScriptProps.container_reporting ScriptProps.slither_report)
               Adapter.SLITHER ["slither-wrapper.py"; "Token.sol"])
            "" 1))
      Adapter.SLITHER "Token.sol" (Example.wrapper Adapter.SLITHER)
    = (inr res, s')
    /\ Base.status res = Base.SUCCESS /\ Base.findings res = [].
Proof.
  apply (wrapper_script_output_yields_no_findings
           (Example.host_running
              (Runs 5
                 (ScriptProps.script_stdout
                    (ScriptProps.container_reporting
                       ScriptProps.slither_report)
                    Adapter.SLITHER ["slither-wrapper.py"; "Token.sol"])
                 "" 1))
           (ScriptProps.container_reporting ScriptProps.slither_report)
           Adapter.SLITHER ["slither-wrapper.py"; "Token.sol"] "Token.sol"
           (Example.wrapper Adapter.SLITHER) 5 1 "").
  - apply json_codec_rejects_prose.
  - reflexivity.
  - intros cmd Hc. by apply example_host_runs.
  - right. by vm_compute.
Defined.




Lemma session_is_initialize_then_analyze_witness :
  Session.async_with (Example.host_running Example.mythril_run)
    (Adapter.analyze (Example.host_running Example.mythril_run)
       Adapter.MYTHRIL "Token.sol")
    (Example.wrapper Adapter.MYTHRIL)
  = (Docker.initialize (Example.host_running Example.mythril_run)
     ≫= fun _ =>
          Adapter.analyze (Example.host_running Example.mythril_run)
            Adapter.MYTHRIL "Token.sol")
      (Example.wrapper Adapter.MYTHRIL).
Proof.
  apply (session_is_initialize_then_analyze
           (Example.host_running Example.mythril_run) Adapter.MYTHRIL
           "Token.sol" (Example.wrapper Adapter.MYTHRIL)).
  reflexivity.
Defined.

Lemma parse_severity_round_trip_witness :
  Base.parse_severity "CRITICAL" = CRITICAL.
Proof.
  apply (parse_severity_round_trip CRITICAL "CRITICAL"). reflexivity.
Defined.

Lemma validate_address_canonical_witness :
  String.length "0xde0b295669a9fd93d5f28d9ec85e40f4cb697bae" = 42%nat
  /\ String.prefix "0x" "0xde0b295669a9fd93d5f28d9ec85e40f4cb697bae" = true
  /\ Py.lower "0xde0b295669a9fd93d5f28d9ec85e40f4cb697bae"
     = "0xde0b295669a9fd93d5f28d9ec85e40f4cb697bae"
  /\ Contract.validate_address
       (Some "0xde0b295669a9fd93d5f28d9ec85e40f4cb697bae")
     = inr (Some "0xde0b295669a9fd93d5f28d9ec85e40f4cb697bae").
Proof.
  apply (validate_address_canonical
           "0xDE0B295669a9FD93d5F28D9Ec85E40f4cb697BAe"
           "0xde0b295669a9fd93d5f28d9ec85e40f4cb697bae").
  reflexivity.
Defined.

Lemma select_best_version_installed_witness :
  "0.8.9" ∈ Fixtures.installed
  \/ Fixtures.installed = [] /\ "0.8.9" = "0.8.19".
Proof.
  apply (select_best_version_installed Fixtures.is_exact_version "^0.8.0"
           Fixtures.installed "0.8.9").
  reflexivity.
Defined.

Lemma select_best_version_caret_none_installed_witness :
  Solc.select_best_version Fixtures.is_exact_version "^0.8.0" []
  = inl (match Solc.split "." (Py.drop_str 1 (Script.strip "^0.8.0")) with
         | _ :: _ :: _ => Solc.IndexError
         | _ => Solc.ValueError
         end).
Proof.
  apply (select_best_version_caret_none_installed Fixtures.is_exact_version
           "^0.8.0").
  reflexivity.
Defined.

Lemma select_best_version_caret_witness :
  exists v,
    Solc.select_best_version Fixtures.is_exact_version "^0.8.0"
      Fixtures.installed = inr v
    /\ v ∈ Solc.compatible "0" "8" Fixtures.installed
    /\ Forall (fun w => String.le w v)
         (Solc.compatible "0" "8" Fixtures.installed).
Proof.
  apply (select_best_version_caret Fixtures.is_exact_version "^0.8.0" "0" "8"
           ["0"] Fixtures.installed).
  - reflexivity.
  - reflexivity.
  - discriminate.
Defined.

End FurtherWitnesses.
